(** * Role-mapping CSV converter of the Tableau export/import tool

    Shallow embedding of [convert_excel_to_csv] (minimal app) and of the
    converter inlined in [main] (styled app), both in
    [APP1UserGroupexportCSV_V1.py], together with the slice of pandas and of
    the csv writer that the two converters call. *)

From Stdlib Require Import ZArith Ascii String DecimalString.
From stdpp Require Import base strings list gmap.

Open Scope string_scope.
Open Scope list_scope.

(** ** Python values and exceptions *)

(** A spreadsheet cell as [pd.read_excel] hands it over: text, the float NaN
    of a blank cell, or a number. *)
Inductive cell :=
| Str (s : string)
| NaN
| Num (z : Z).

Inductive exn :=
| TypeError      (* argument of type float / int is not iterable *)
| ReadError.     (* raised by pd.read_excel on an unreadable workbook *)

Inductive result (A : Type) :=
| Ok (a : A)
| Raise (e : exn).
Arguments Ok {A} a.
Arguments Raise {A} e.

#[global] Instance result_ret : MRet result := λ A a, Ok a.
#[global] Instance result_bind : MBind result := λ A B f m,
  match m with
  | Ok a => f a
  | Raise e => Raise e
  end.

(** [needle in haystack] on two Python strings: is [needle] a contiguous
    run of [haystack], compared character by character (no case folding).
    Strings are taken as their UTF-8 bytes, on which containment agrees
    with containment of code points. *)
Fixpoint contains (needle haystack : string) : bool :=
  if String.prefix needle haystack then true
  else match haystack with
       | EmptyString => false
       | String _ rest => contains needle rest
       end.

(** The [in] operator with a string on the left: only a string on the right
    supports it, a float or an int raises TypeError. *)
Definition py_in (needle : string) (container : cell) : result bool :=
  match container with
  | Str s => Ok (contains needle s)
  | NaN => Raise TypeError
  | Num _ => Raise TypeError
  end.

(** ** Rows *)

(** One row of the data frame, as [iterrows] yields it: a Series indexed by
    the column labels. *)
Abbreviation row := (gmap string cell).

(** [Series.get(key, default)]. *)
Definition get (r : row) (key : string) (dflt : cell) : cell :=
  default dflt (r !! key).

(** One element of [transformed_data]: the six-element list appended per row. *)
Abbreviation record := (list cell).

(** ** The minimal converter: body of the loop of [convert_excel_to_csv] *)

Definition loop_body (r : row) : result record :=
  let email := get r "Email" (Str EmptyString) in
  let site_role := get r "Site Role" (Str EmptyString) in
  let simplified_role := Str EmptyString in
  let fifth_column := "None" in
  let sixth_column := "False" in
  '(simplified_role, fifth_column, sixth_column) ←
    (c1 ← py_in "SiteAdministratorCreator" site_role;
     if c1 : bool then
       let simplified_role := Str "Creator" in
       let fifth_column := "site" in
       let sixth_column := "True" in
       Ok (simplified_role, fifth_column, sixth_column)
     else
       c2 ← py_in "ExplorerCanPublish" site_role;
       if c2 : bool then
         let simplified_role := Str "Explorer" in
         let sixth_column := "True" in
         Ok (simplified_role, fifth_column, sixth_column)
       else
         c3 ← py_in "Viewer" site_role;
         if c3 : bool then
           let simplified_role := Str "Viewer" in
           Ok (simplified_role, fifth_column, sixth_column)
         else
           c4 ← py_in "SiteAdministratorExplorer" site_role;
           if c4 : bool then
             let simplified_role := Str "Explorer" in
             let fifth_column := "site" in
             let sixth_column := "True" in
             Ok (simplified_role, fifth_column, sixth_column)
           else
             let simplified_role := site_role in  (* fallback to original *)
             Ok (simplified_role, fifth_column, sixth_column));
  (* transformed_data.append([...]) *)
  Ok [email; Str EmptyString; Str EmptyString;
      simplified_role; Str fifth_column; Str sixth_column].

(** [for _, row in df.iterrows(): ... transformed_data.append(...)]: the
    rows are visited in order, each record is appended at the end, and an
    exception raised by the body leaves the loop. *)
Fixpoint for_rows (body : row → result record) (rows : list row)
    (transformed_data : list record) : result (list record) :=
  match rows with
  | [] => Ok transformed_data
  | r :: rest =>
      rec ← body r;
      for_rows body rest (transformed_data ++ [rec])
  end.

(** ** The styled converter: body of the loop inlined in [main] *)

Definition main_loop_body (r : row) : result record :=
  let email := get r "Email" (Str EmptyString) in
  let site_role := get r "Site Role" (Str EmptyString) in
  let simplified_role := Str EmptyString in
  let fifth_column := "None" in
  let sixth_column := "False" in
  '(simplified_role, fifth_column, sixth_column) ←
    (c1 ← py_in "SiteAdministratorCreator" site_role;
     if c1 : bool then
       let simplified_role := Str "Creator" in
       let fifth_column := "site" in
       let sixth_column := "True" in
       Ok (simplified_role, fifth_column, sixth_column)
     else
       c2 ← py_in "ExplorerCanPublish" site_role;
       if c2 : bool then
         let simplified_role := Str "Explorer" in
         let sixth_column := "True" in
         Ok (simplified_role, fifth_column, sixth_column)
       else
         c3 ← py_in "Viewer" site_role;
         if c3 : bool then
           let simplified_role := Str "Viewer" in
           Ok (simplified_role, fifth_column, sixth_column)
         else
           c4 ← py_in "SiteAdministratorExplorer" site_role;
           if c4 : bool then
             let simplified_role := Str "Explorer" in
             let fifth_column := "site" in
             let sixth_column := "True" in
             Ok (simplified_role, fifth_column, sixth_column)
           else
             let simplified_role := site_role in
             Ok (simplified_role, fifth_column, sixth_column));
  Ok [email; Str EmptyString; Str EmptyString;
      simplified_role; Str fifth_column; Str sixth_column].

(** ** pandas: [pd.DataFrame(transformed_data).to_csv(index=False, header=False)] *)

Inductive platform := Posix | Windows.

Definition LF : ascii := "010"%char.
Definition CR : ascii := "013"%char.
Definition comma : ascii := ","%char.
Definition dquote : ascii := "034"%char.

(** [os.linesep], the default line terminator of [to_csv]. *)
Definition linesep (os : platform) : string :=
  match os with
  | Posix => String LF EmptyString
  | Windows => String CR (String LF EmptyString)
  end.

Section ToCsv.
Context (os : platform).
(** How pandas prints a number of a column, which depends on the dtype it
    infers for the whole column; left open. *)
Context (format_num : list cell → Z → string).

(** The csv writer behind [to_csv], with the defaults pandas passes
    (comma, double quote, QUOTE_MINIMAL, doublequote): a field is quoted
    when it holds the delimiter, the quote character or a character of the
    line terminator. *)
Definition special (c : ascii) : bool :=
  Ascii.eqb c comma || Ascii.eqb c dquote
  || existsb (Ascii.eqb c) (list_ascii_of_string (linesep os)).

Definition needs_quote (field : string) : bool :=
  existsb special (list_ascii_of_string field).

(** doublequote=True: a quote character inside a field is written twice. *)
Fixpoint double_quotes (field : string) : string :=
  match field with
  | EmptyString => EmptyString
  | String c rest =>
      if Ascii.eqb c dquote then String c (String c (double_quotes rest))
      else String c (double_quotes rest)
  end.

Definition write_field (field : string) : string :=
  if needs_quote field
  then String dquote (double_quotes field +:+ String dquote EmptyString)
  else field.

Definition writerow (fields : list string) : string :=
  String.concat "," (map write_field fields) +:+ linesep os.

(** Column [j] of the frame built from [transformed_data], whose elements
    all have six entries. *)
Definition column (data : list record) (j : nat) : list cell :=
  omap (λ rec : record, rec !! j) data.

(** A string prints as itself, NaN as na_rep (empty by default). *)
Definition format_cell (col : list cell) (c : cell) : string :=
  match c with
  | Str s => s
  | NaN => EmptyString
  | Num z => format_num col z
  end.

Definition format_record (data : list record) (rec : record) : list string :=
  imap (λ j c, format_cell (column data j) c) rec.

(** No header line, no index column: one written row per record; a frame
    without rows writes nothing. *)
Definition to_csv (data : list record) : string :=
  String.concat EmptyString (map (λ rec, writerow (format_record data rec)) data).
End ToCsv.

(** ** Streamlit calls made by the converters *)

Inductive st_call :=
| warning                                         (* st.warning *)
| preview                                         (* st.write / st.dataframe of df.head() *)
| download_button (data file_name mime : string)  (* st.download_button *)
| success (msg : string)                          (* st.success *)
| error (e : exn)                                 (* st.error, inside an except clause *)
| uncaught (e : exn).                             (* exception leaving the function *)

(** ** The two entry points *)

(** An uploaded file is represented by what [pd.read_excel] makes of it:
    the rows of the first sheet, or the exception it raises. [None] is the
    empty uploader. *)
Abbreviation upload := (option (result (list row))).

Section Apps.
Context (os : platform) (format_num : list cell → Z → string).

Definition convert_excel_to_csv (uploaded_file : upload) : list st_call :=
  match uploaded_file with
  | None => [warning]
  | Some (Raise e) => [error e]
  | Some (Ok df) =>
      preview ::
      match for_rows loop_body df [] with
      | Raise e => [error e]
      | Ok transformed_data =>
          let csv_data := to_csv os format_num transformed_data in
          [download_button csv_data "converted_users.csv" "text/csv";
           success "Conversion complete!"]
      end
  end.

(** The conversion mode of [main]; [button] is the value of
    [st.button] for the convert button. The workbook is read outside
    the try block here. *)
Definition main (uploaded_file : upload) (button : bool) : list st_call :=
  match uploaded_file with
  | None => []
  | Some (Raise e) => [success "File uploaded successfully"; uncaught e]
  | Some (Ok df) =>
      success "File uploaded successfully" :: preview ::
      if button then
        match for_rows main_loop_body df [] with
        | Raise e => [error e]
        | Ok transformed_data =>
            let csv_data := to_csv os format_num transformed_data in
            [download_button csv_data "converted_users.csv" "text/csv";
             success "Conversion complete!"]
        end
      else []
  end.
End Apps.

(** The data offered for download by a run. *)
Definition downloads (calls : list st_call) : list string :=
  omap (λ c, match c with download_button data _ _ => Some data | _ => None end) calls.

(** ** The mapping table of the specification *)

(** [p] occurs in [s] as a contiguous run of characters. *)
Definition substring (p s : string) : Prop :=
  ∃ a b, s = a +:+ p +:+ b.

(** Rows 0 to 3 of the table: pattern, then simplified role, admin scope
    and publish flag. Row 4 is the row for none of the above. *)
Definition mapping_table : list (string * (string * string * string)) :=
  [ ("SiteAdministratorCreator",  ("Creator",  "site", "True"));
    ("ExplorerCanPublish",        ("Explorer", "None", "True"));
    ("Viewer",                    ("Viewer",   "None", "False"));
    ("SiteAdministratorExplorer", ("Explorer", "site", "True")) ].

Definition pass_through (s : string) : string * string * string :=
  (s, "None", "False").

(** The condition in the first column of table row [i]. *)
Definition row_holds (i : nat) (s : string) : Prop :=
  match mapping_table !! i with
  | Some (p, _) => substring p s
  | None => i = length mapping_table
            ∧ ∀ p res, (p, res) ∈ mapping_table → ¬ substring p s
  end.

(** First match wins: row [i] applies when it is the first whose condition
    holds. *)
Definition row_applies (i : nat) (s : string) : Prop :=
  row_holds i s ∧ ∀ j, j < i → ¬ row_holds j s.

Definition row_result (i : nat) (s : string) : string * string * string :=
  match mapping_table !! i with
  | Some (_, res) => res
  | None => pass_through s
  end.

(** The table read top to bottom. *)
Definition lookup_role (s : string) : string * string * string :=
  match find (λ '(p, _), contains p s) mapping_table with
  | Some (_, res) => res
  | None => pass_through s
  end.

(** ** Reading CSV text back *)

(** A reader of comma-separated text, written on its own, character by
    character, and not from the writer above: fields are separated by
    commas; a record ends at a line feed, at a carriage return or at the
    pair of them; blank lines are skipped; a field that opens with a double
    quote runs to the closing one, and inside it two double quotes stand
    for one. *)
Inductive mode :=
| StartRecord    (* nothing read of the record yet *)
| StartField     (* just after a comma *)
| InField        (* inside a field without quotes *)
| InQuoted       (* inside a quoted field *)
| AfterQuote.    (* after a double quote met inside a quoted field *)

Record reader := {
  at_ : mode;
  field : string;
  fields : list string;
  records : list (list string) }.

Definition add_char (m : mode) (r : reader) (c : ascii) : reader :=
  {| at_ := m; field := field r +:+ String c EmptyString;
     fields := fields r; records := records r |}.

Definition end_field (r : reader) : reader :=
  {| at_ := StartField; field := EmptyString;
     fields := fields r ++ [field r]; records := records r |}.

Definition end_record (r : reader) : reader :=
  {| at_ := StartRecord; field := EmptyString; fields := [];
     records := records r ++ [fields r ++ [field r]] |}.

Definition enter (m : mode) (r : reader) : reader :=
  {| at_ := m; field := field r; fields := fields r; records := records r |}.

(** A character met outside quotes. *)
Definition step_plain (r : reader) (c : ascii) : reader :=
  if Ascii.eqb c "," then end_field r
  else if Ascii.eqb c "010" || Ascii.eqb c "013" then end_record r
  else add_char InField r c.

Definition step (r : reader) (c : ascii) : option reader :=
  match at_ r with
  | StartRecord =>
      if Ascii.eqb c "010" || Ascii.eqb c "013" then Some r
      else if Ascii.eqb c "034" then Some (enter InQuoted r)
      else Some (step_plain r c)
  | StartField =>
      if Ascii.eqb c "034" then Some (enter InQuoted r)
      else Some (step_plain r c)
  | InField => Some (step_plain r c)
  | InQuoted =>
      if Ascii.eqb c "034" then Some (enter AfterQuote r)
      else Some (add_char InQuoted r c)
  | AfterQuote =>
      if Ascii.eqb c "034" then Some (add_char InQuoted r c)
      else if Ascii.eqb c "," || Ascii.eqb c "010" || Ascii.eqb c "013"
           then Some (step_plain r c)
           else None
  end.

Fixpoint run (r : reader) (text : string) : option reader :=
  match text with
  | EmptyString => Some r
  | String c rest =>
      match step r c with
      | Some r' => run r' rest
      | None => None
      end
  end.

(** At the end of the text: a record without its line end still counts, a
    quoted field left open does not read. *)
Definition finish (r : reader) : option (list (list string)) :=
  match at_ r with
  | StartRecord => Some (records r)
  | InQuoted => None
  | _ => Some (records r ++ [fields r ++ [field r]])
  end.

Definition read_csv (text : string) : option (list (list string)) :=
  match run {| at_ := StartRecord; field := EmptyString; fields := [];
               records := [] |} text with
  | Some r => finish r
  | None => None
  end.

(** ** Vocabulary of the statements *)

Definition email_of (r : row) : cell := get r "Email" (Str EmptyString).
Definition site_role_of (r : row) : cell := get r "Site Role" (Str EmptyString).

(** The site role is text: either the column is absent (the default
    applies) or the cell holds a string. *)
Definition text_role (r : row) : Prop := ∃ s, site_role_of r = Str s.

Definition record_of (email : cell) (m : string * string * string) : record :=
  let '(role, scope, publish) := m in
  [email; Str EmptyString; Str EmptyString; Str role; Str scope; Str publish].

(** The record expected for a row whose site role is text. *)
Definition expected_record (r : row) : record :=
  match site_role_of r with
  | Str s => record_of (email_of r) (lookup_role s)
  | _ => []
  end.

(** Two rows that agree on the two columns the converter reads. *)
Definition same_fields (r1 r2 : row) : Prop :=
  email_of r1 = email_of r2 ∧ site_role_of r1 = site_role_of r2.

(** What a successful run shows: the preview, the download and the
    closing message. *)
Definition converted (csv_data : string) : list st_call :=
  [preview;
   download_button csv_data "converted_users.csv" "text/csv";
   success "Conversion complete!"].

(** *** Vocabulary of the layout claim

    What a reader of the download is to find, written without the csv
    writer above. *)

(** A character that means nothing to a reader of comma-separated text:
    neither the comma, nor the double quote, nor a line feed, nor a
    carriage return. *)
Definition ordinary (c : ascii) : bool :=
  negb (Ascii.eqb c "," || Ascii.eqb c "034" || Ascii.eqb c "010"
        || Ascii.eqb c "013").

Definition plain_text (s : string) : bool :=
  forallb ordinary (list_ascii_of_string s).

(** Where the line terminator is the line feed alone, the csv writer does
    not quote a carriage return, which a reader takes for a line end; text
    with a carriage return is set aside there. *)
Definition no_bare_return (os : platform) (s : string) : bool :=
  match os with
  | Posix => forallb (λ c, negb (Ascii.eqb c "013")) (list_ascii_of_string s)
  | Windows => true
  end.





(** Sample inputs. *)
Definition sample_row (e s : string) : row :=
  <["Email" := Str e]> (<["Site Role" := Str s]> ∅).

Definition blank_role_row : row :=
  <["Email" := Str "a@x.com"]> (<["Site Role" := NaN]> ∅).

Definition no_role_row : row :=
  <["Email" := Str "a@x.com"]> ∅.

Definition null_role_row : row :=
  <["Email" := Str "n@x.com"]> (<["Site Role" := NaN]> ∅).


Definition plain_format : list cell → Z → string := λ _ _, "0".

(** * The rest of the two apps: exports, imports, workbook downloads *)

(** ** Python computations against the Tableau site *)

(** An exception: whether it is a [TSC.ServerResponseError], and [str(e)]. *)
Inductive exception :=
| ServerResponseError (msg : string)
| OtherException (msg : string).

Definition str_e (e : exception) : string :=
  match e with
  | ServerResponseError msg => msg
  | OtherException msg => msg
  end.

(** A call either returns or raises. *)
Inductive py (A : Type) :=
| Got (a : A)
| Fault (e : exception).
Arguments Got {A} a.
Arguments Fault {A} e.

Inductive level := st_success | st_info | st_warning | st_error | st_toast.

(** Calls to the Tableau Server Client and to the local file system. *)
Inductive api :=
| SignIn
| SignOut
| UsersGet
| GroupsGet
| ProjectsGet
| WorkbooksGet
| DatasourcesGet
| UsersAdd (kwargs : list (string * option cell))
| GroupsCreate (name : string)
| WorkbooksDownload (id : string)
| ReadFile (path : string)
| RemoveFile (path : string).

(** What a run does, in order. [Say] is a Streamlit message: the fixed
    text of the f-string (without its leading pictogram) and the values
    put into its holes. Spinners, progress bars, captions, detail panels
    and layout containers are left out. *)
Inductive action :=
| Say (lvl : level) (msg : string) (args : list cell)
| DataPreview
| Offer (data file_name mime : string)
| Call (c : api).

(** A computation reads and changes the state of the world (the site, the
    session, the temporary files), returns or raises, and leaves the
    actions it made. *)
Definition io (σ A : Type) : Type := σ → py A * σ * list action.

#[global] Instance io_ret {σ} : MRet (io σ) := λ A a s, (Got a, s, []).
#[global] Instance io_bind {σ} : MBind (io σ) := λ A B f m s,
  match m s with
  | (Got a, s1, l1) =>
      match f a s1 with
      | (r, s2, l2) => (r, s2, l1 ++ l2)
      end
  | (Fault e, s1, l1) => (Fault e, s1, l1)
  end.

(** [try: body except Exception as e: handler]. *)
Definition try_except {σ A} (body : io σ A) (handler : exception → io σ A) : io σ A :=
  λ s,
    match body s with
    | (Got a, s1, l1) => (Got a, s1, l1)
    | (Fault e, s1, l1) =>
        match handler e s1 with
        | (r, s2, l2) => (r, s2, l1 ++ l2)
        end
    end.

Definition act {σ} (a : action) : io σ unit := λ s, (Got tt, s, [a]).

Definition say {σ} (lvl : level) (msg : string) (args : list cell) : io σ unit :=
  act (Say lvl msg args).

(** A call of the client: logged, then performed on the world. *)
Definition call {σ A} (c : api) (op : σ → py A * σ) : io σ A :=
  λ s, let '(r, s') := op s in (r, s', [Call c]).

(** A pure step that may raise. *)
Definition lift {σ A} (r : py A) : io σ A := λ s, (r, s, []).

(** [for x in l: body(x)]. *)
Fixpoint for_each {σ A} (body : A → io σ unit) (l : list A) : io σ unit :=
  match l with
  | [] => mret tt
  | x :: rest => body x ;; for_each body rest
  end.

(** The actions of a run and whether it raised. *)
Definition actions {σ A} (run : py A * σ * list action) : list action := run.2.
Definition final_state {σ A} (run : py A * σ * list action) : σ := run.1.2.
Definition returned {σ A} (run : py A * σ * list action) : py A := run.1.1.

(** File names offered for download, identifiers of the workbooks asked
    from the server, and whether a call is the sign-out. *)
Definition offered_files (l : list action) : list string :=
  omap (λ a, match a with Offer _ file_name _ => Some file_name | _ => None end) l.

Definition download_calls (l : list action) : list string :=
  omap (λ a, match a with Call (WorkbooksDownload id) => Some id | _ => None end) l.

(** ** Items of the Tableau Server Client *)

(** An attribute is carried as a cell: text, None (which pandas writes like
    NaN, as an empty field) or a number; a timestamp stands as the text
    pandas prints for it. *)
Record user_item := {
  u_name : cell; u_fullname : cell; u_email : cell;
  u_site_role : cell; u_last_login : cell }.

Record group_item := { g_name : cell; g_id : cell }.

Record project_item := {
  p_name : string; p_description : cell; p_content_permissions : cell }.

Record workbook_item := {
  w_name : string; w_id : string; w_owner_id : cell;
  w_project_name : option string; w_created_at : cell; w_updated_at : cell }.

Record datasource_item := {
  d_name : cell; d_owner_id : cell; d_project_name : cell;
  d_created_at : cell; d_updated_at : cell }.

Inductive auth :=
| PersonalAccessTokenAuth (token_name token_value site_id : string)
| TableauAuth (username password site_id : string).

(** The client and the file system, over a state of the world [σ]. *)
Class Tableau (σ : Type) := {
  sign_in : auth → σ → py unit * σ;
  sign_out : σ → py unit * σ;
  users_get : σ → py (list user_item) * σ;
  groups_get : σ → py (list group_item) * σ;
  projects_get : σ → py (list project_item) * σ;
  workbooks_get : σ → py (list workbook_item) * σ;
  datasources_get : σ → py (list datasource_item) * σ;
  users_add : list (string * option cell) → σ → py unit * σ;
  groups_create : string → σ → py unit * σ;
  workbooks_download : string → σ → py string * σ;
  read_file : string → σ → py string * σ;
  os_remove : string → σ → py unit * σ }.

(** ** pandas: [pd.DataFrame(data, columns=headers).to_csv(index=False)] *)

(** The csv writer on one row; a row that is a single empty field is
    written as a pair of quotes. *)
Definition csv_writerow (os : platform) (fields : list string) : string :=
  match fields with
  | [EmptyString] => String dquote (String dquote EmptyString) +:+ linesep os
  | _ => writerow os fields
  end.

Definition show_nat (n : nat) : string :=
  NilEmpty.string_of_uint (Nat.to_uint n).

(** The frame of a list of lists under given column labels: short rows
    are filled with missing values up to the longest, whose length must be
    the number of labels; no rows at all give the empty frame. *)
Definition DataFrame (data : list record) (columns : list string) : py (list record) :=
  match data with
  | [] => Got []
  | _ =>
      let width := foldr (λ rec w, Nat.max (length rec) w) 0 data in
      if Nat.eqb width (length columns)
      then Got (map (λ rec, rec ++ replicate (width - length rec) NaN) data)
      else Fault (OtherException
                    (show_nat (length columns) +:+ " columns passed, passed data had "
                     +:+ show_nat width +:+ " columns"))
  end.

Definition to_csv_header (os : platform) (format_num : list cell → Z → string)
    (columns : list string) (frame : list record) : string :=
  csv_writerow os columns
  +:+ String.concat EmptyString
        (map (λ rec, csv_writerow os (format_record format_num frame rec)) frame).

(** What a reader is to find in a cell that is text or missing: the text,
    or nothing. *)
Definition textual (c : cell) : bool :=
  match c with
  | Num _ => false
  | _ => true
  end.

Definition cell_text (c : cell) : string :=
  match c with
  | Str s => s
  | _ => EmptyString
  end.

(** Rows of text and missing values, free of the carriage returns that
    the writer leaves bare where the line ends with a line feed alone. *)
Definition printable (os : platform) (rows : list record) : bool :=
  forallb (forallb (λ c, textual c && no_bare_return os (cell_text c))) rows.


(** A computation that, wherever it starts, signs out when it returns, and
    whenever it signs out has offered exactly the files [files]; and a
    step that does not sign out and, when it returns, has offered
    exactly [files]. *)
Definition signs_out_after {σ} (files : list string) (k : io σ unit) : Prop :=
  ∀ s, ∃ r s' l,
    k s = (r, s', l)
    ∧ (r = Got tt → Call SignOut ∈ l)
    ∧ (Call SignOut ∈ l → offered_files l = files).

Definition offers_without_sign_out {σ} (files : list string) (m : io σ unit) : Prop :=
  ∀ s, ∃ r s' l,
    m s = (r, s', l)
    ∧ (Call SignOut ∉ l)
    ∧ (r = Got tt → offered_files l = files).

(** ** Rows of an uploaded CSV file *)

Inductive import_kind := Users | Groups.

(** A row of a frame read by [pd.read_csv]: the cells under their column
    labels, in column order. *)
Abbreviation series := (list (string * cell)).

Definition notna (c : cell) : bool :=
  match c with
  | NaN => false
  | _ => true
  end.

(** [row.dropna()]. *)
Definition dropna (row : series) : series :=
  List.filter (λ kv, notna kv.2) row.

(** [d[k] = v] on a dict kept in insertion order. *)
Fixpoint dict_set (k : string) (v : cell) (d : series) : series :=
  match d with
  | [] => [(k, v)]
  | (k', v') :: rest =>
      if String.eqb k k' then (k, v) :: rest else (k', v') :: dict_set k v rest
  end.

(** [row.to_dict()]: a label met again keeps its place and takes the later
    value. *)
Definition to_dict (row : series) : series :=
  fold_left (λ d kv, dict_set kv.1 kv.2 d) row [].

(** [row.get(key)] and [row.get(key, default)], for labels that are
    distinct as [pd.read_csv] makes them. *)
Definition series_lookup (row : series) (key : string) : option cell :=
  snd <$> List.find (λ kv, String.eqb kv.1 key) row.

Definition series_get (row : series) (key : string) (dflt : cell) : cell :=
  default dflt (series_lookup row key).

(** [TSC.UserItem(...)]. The constructor of the Tableau Server Client
    takes the keywords [name], [site_role] and [auth_setting]. Python
    checks the keywords of a call before the body runs: the first keyword
    of the call that the constructor does not take raises TypeError, and
    no item is made. An item is carried as the keywords it was made
    from. *)
Definition UserItem_params : list string := ["name"; "site_role"; "auth_setting"].

(** The text of that TypeError, as Python 3.10 and later print it. *)
Definition unexpected_keyword (k : string) : string :=
  "UserItem.__init__() got an unexpected keyword argument '" +:+ k +:+ "'".

Definition UserItem (kwargs : list (string * option cell))
    : py (list (string * option cell)) :=
  match List.find (λ kv, negb (bool_decide (kv.1 ∈ UserItem_params))) kwargs with
  | Some (k, _) => Fault (OtherException (unexpected_keyword k))
  | None => Got kwargs
  end.

(** The set [valid_keys]; the keyword arguments of the [TSC.UserItem] call
    are the same names in the same order. *)
Definition valid_keys : list string :=
  ["name"; "site_role"; "full_name"; "email";
   "auth_setting"; "external_auth_user_id"; "locale";
   "password"; "password_never_expires"; "must_change_password";
   "content_admin"; "server_role"; "tags"].

(** The row has a cell that is not missing under a label that [lower]
    turns into [k]. *)
Definition has_column (lower : string → string) (row : series) (k : string) : Prop :=
  ∃ label v, (label, v) ∈ row ∧ v ≠ NaN ∧ lower label = k.

(** The value of the last entry whose lowered label is [k]. *)
Definition last_value (lower : string → string) (k : string) (row_dict : series)
    : option cell :=
  snd <$> last (List.filter (λ kv, String.eqb (lower kv.1) k) row_dict).

Definition is_users_add (a : action) : bool :=
  match a with
  | Call (UsersAdd _) => true
  | _ => false
  end.

Definition is_groups_create (a : action) : bool :=
  match a with
  | Call (GroupsCreate _) => true
  | _ => false
  end.

Definition is_skip (a : action) : bool :=
  match a with
  | Say st_warning msg [] =>
      String.eqb msg "Skipping row because 'name' or 'site_role' missing"
      || String.eqb msg "Skipping row with no valid group name"
  | _ => false
  end.

(** The rows answered in a list of actions: calls of the given kind, and
    skips. *)
Definition answered (is_call : action → bool) (l : list action) : nat :=
  length (List.filter is_call l) + length (List.filter is_skip l).

(** A text cell with nothing left after [strip()], or a cell that is not
    text. *)
Definition no_group_name (strip : string → string) (c : cell) : Prop :=
  ∀ val, c = Str val → strip val = EmptyString.

(** The first cell of the row is there and is not missing. *)
Definition first_cell_present (row : series) : bool :=
  match row with
  | [] => false
  | (_, first) :: _ => notna first
  end.

(** The search of the download page: the workbook is in the project and,
    unless the query is empty, its lowered name holds the lowered query. *)
Definition matches_search (lower : string → string) (project_name search_query : string)
    (wb : workbook_item) : Prop :=
  w_project_name wb = Some project_name
  ∧ (search_query = EmptyString
     ∨ substring (lower search_query) (lower (w_name wb))).

(** ** The minimal app: exports *)

Section Minimal.
Context {σ : Type} {site : Tableau σ}.
Context (os : platform) (format_num : list cell → Z → string).
(** [str.lower] and [str.strip], which follow the Unicode tables. *)
Context (lower strip : string → string).

(** [to_csv_download(data, headers, filename, label)]. *)
Definition to_csv_download (data : list record) (headers : list string)
    (filename : string) : io σ unit :=
  df ← lift (DataFrame data headers);
  let csv := to_csv_header os format_num headers df in
  act (Offer csv filename "text/csv").

Definition export_users : io σ unit :=
  users ← call UsersGet users_get;
  let data := map (λ u, [u_name u; u_fullname u; u_email u;
                         u_site_role u; u_last_login u]) users in
  let headers := ["Name"; "Full Name"; "Email"; "Site Role"; "Last Login"] in
  to_csv_download data headers "users.csv".

Definition export_groups : io σ unit :=
  groups ← call GroupsGet groups_get;
  let data := map (λ g, [g_name g; g_id g]) groups in
  let headers := ["Group Name"; "Group ID"] in
  to_csv_download data headers "groups.csv".

Definition export_projects : io σ unit :=
  projects ← call ProjectsGet projects_get;
  let data := map (λ p, [Str (p_name p); p_description p;
                         p_content_permissions p]) projects in
  let headers := ["Name"; "Description"; "Content Permissions"] in
  to_csv_download data headers "projects.csv".

Definition export_workbooks : io σ unit :=
  workbooks ← call WorkbooksGet workbooks_get;
  let data := map (λ w, [Str (w_name w); w_owner_id w;
                         from_option Str NaN (w_project_name w);
                         w_created_at w; w_updated_at w]) workbooks in
  let headers := ["Workbook Name"; "Owner ID"; "Project"; "Created At"; "Updated At"] in
  to_csv_download data headers "workbooks.csv".

Definition export_datasources : io σ unit :=
  datasources ← call DatasourcesGet datasources_get;
  let data := map (λ d, [d_name d; d_owner_id d; d_project_name d;
                         d_created_at d; d_updated_at d]) datasources in
  let headers := ["Datasource Name"; "Owner ID"; "Project"; "Created At"; "Updated At"] in
  to_csv_download data headers "datasources.csv".

(** [connect_to_tableau(auth)]: build the server object and sign in. *)
Definition connect_to_tableau (a : auth) : io σ unit :=
  call SignIn (sign_in a).

Definition run_export (a : auth) : io σ unit :=
  try_except
    (connect_to_tableau a;;
     say st_success "Connected successfully!" [];;
     export_users;;
     export_groups;;
     export_projects;;
     export_workbooks;;
     export_datasources;;
     call SignOut sign_out;;
     say st_info "Signed out successfully." [])
    (λ e, say st_error "Connection failed: {}" [Str (str_e e)]).

(** ** The minimal app: imports *)

(** The loop that fills [user_kwargs]. *)
Definition user_kwargs_of (row_dict : series) : gmap string cell :=
  fold_left
    (λ (user_kwargs : gmap string cell) kv,
       let key_lower := lower kv.1 in
       if bool_decide (key_lower ∈ valid_keys)
       then <[key_lower := kv.2]> user_kwargs
       else user_kwargs)
    row_dict ∅.

(** The keyword arguments [k=user_kwargs.get(k)] of the [TSC.UserItem] call. *)
Definition UserItem_kwargs (user_kwargs : gmap string cell)
    : list (string * option cell) :=
  map (λ k, (k, user_kwargs !! k)) valid_keys.

(** Body of the loop over the rows, import type Users. *)
Definition import_user_row (row : series) : io σ unit :=
  try_except
    (let row_dict := to_dict (dropna row) in
     let user_kwargs := user_kwargs_of row_dict in
     match user_kwargs !! "name", user_kwargs !! "site_role" with
     | Some _, Some _ =>
         new_user ← lift (UserItem (UserItem_kwargs user_kwargs));
         call (UsersAdd new_user) (users_add new_user)
     | _, _ =>
         say st_warning "Skipping row because 'name' or 'site_role' missing" []
     end)
    (λ e, say st_warning "Could not add user {}: {}"
            [series_get row "name" (Str "unknown"); Str (str_e e)]).

(** The first value that is a string with something left after
    [strip()], stripped. *)
Fixpoint first_group_name (vals : list cell) : option string :=
  match vals with
  | [] => None
  | Str val :: rest =>
      if String.eqb (strip val) EmptyString then first_group_name rest
      else Some (strip val)
  | _ :: rest => first_group_name rest
  end.

(** Body of the loop over the rows, import type Groups. *)
Definition import_group_row (row : series) : io σ unit :=
  let row_dict := to_dict (dropna row) in
  let group_name := first_group_name (map snd row_dict) in
  try_except
    (match group_name with
     | Some name =>
         if String.eqb name EmptyString
         then say st_warning "Skipping row with no valid group name" []
         else call (GroupsCreate name) (groups_create name)
     | None => say st_warning "Skipping row with no valid group name" []
     end)
    (λ e, say st_warning "Could not create group {}: {}"
            [Str (default "unknown" group_name); Str (str_e e)]).

(** An uploaded CSV file is represented by what [pd.read_csv] makes of it. *)
Definition run_import (import_type : import_kind)
    (uploaded_file : option (py (list series))) (a : auth) : io σ unit :=
  match uploaded_file with
  | None => say st_warning "Please upload a CSV file before importing." []
  | Some file =>
      try_except
        (connect_to_tableau a;;
         say st_success "Connected to Tableau" [];;
         df ← lift file;
         act DataPreview;;
         match import_type with
         | Users =>
             for_each import_user_row df;;
             say st_success "All users imported!" []
         | Groups =>
             for_each import_group_row df;;
             say st_success "All groups imported!" []
         end;;
         call SignOut sign_out;;
         say st_info "Signed out successfully." [])
        (λ e, say st_error "Import failed: {}" [Str (str_e e)])
  end.
End Minimal.

(** ** The styled app: imports inlined in [main] *)

Section Styled.
Context {σ : Type} {site : Tableau σ}.
(** [str.lower], and [str()] of a number. *)
Context (lower : string → string) (str_num : Z → string).

(** [connect_to_tableau(auth, server_url)]. *)
Definition connect_to_tableau_url (a : auth) : io σ unit :=
  call SignIn (sign_in a).

(** [str(group_name)]. *)
Definition str_cell (c : cell) : string :=
  match c with
  | Str s => s
  | NaN => "nan"
  | Num z => str_num z
  end.

(** Body of the loop over the rows, import type Users. *)
Definition main_import_user_row (row : series) : io σ unit :=
  try_except
    (new_user ← lift (UserItem
                        [("name", series_lookup row "name");
                         ("site_role", series_lookup row "site_role");
                         ("full_name", series_lookup row "full_name");
                         ("email", series_lookup row "email")]);
     call (UsersAdd new_user) (users_add new_user))
    (λ e, say st_warning "Could not add user {}: {}"
            [series_get row "name" (Str "unknown"); Str (str_e e)]).

(** Body of the loop over the rows, import type Groups. The local
    [group_name] outlives the iteration: the except clause prints the one
    of an earlier row when [row.iloc[0]] itself raises. *)
Definition main_import_group_row (row : series) (group_name : option cell)
    : io σ (option cell) :=
  match row with
  | [] =>
      say st_warning "Could not create group {}: {}"
        [default (Str "unknown") group_name;
         Str "single positional indexer is out-of-bounds"];;
      mret group_name
  | (_, first) :: _ =>
      let group_name := first in
      try_except
        (if notna group_name
         then call (GroupsCreate (str_cell group_name))
                (groups_create (str_cell group_name))
         else mret tt)
        (λ e, say st_warning "Could not create group {}: {}"
                [group_name; Str (str_e e)]);;
      mret (Some group_name)
  end.

Fixpoint main_import_groups (df : list series) (group_name : option cell)
    : io σ unit :=
  match df with
  | [] => mret tt
  | row :: rest =>
      group_name ← main_import_group_row row group_name;
      main_import_groups rest group_name
  end.

(** The import mode of [main] once a file is uploaded and the import
    button pressed. *)
Definition main_import (import_type : import_kind) (df : list series)
    (a : auth) : io σ unit :=
  try_except
    (connect_to_tableau_url a;;
     say st_success "Connected to Tableau" [];;
     match import_type with
     | Users =>
         for_each main_import_user_row df;;
         say st_success "All users imported!" []
     | Groups =>
         main_import_groups df None;;
         say st_success "All groups imported!" []
     end;;
     call SignOut sign_out;;
     say st_info "Signed out successfully." [])
    (λ e, say st_error "Import failed: {}" [Str (str_e e)]).

(** ** The styled app: workbook downloads *)

(** Streamlit inputs of the download page. *)
Inductive download_option :=
| AllFromProject
| SpecificWorkbook
| SearchAndDownload.

(** [st.selectbox]: the option the user has picked. *)
Context (selectbox : list string → string).

(** Download one workbook to a temporary file, read it, offer it, remove
    the file. *)
Definition fetch_and_offer (wb : workbook_item) (file_name : string) : io σ unit :=
  workbook_path ← call (WorkbooksDownload (w_id wb)) (workbooks_download (w_id wb));
  workbook_data ← call (ReadFile workbook_path) (read_file workbook_path);
  act (Offer workbook_data file_name "application/octet-stream");;
  call (RemoveFile workbook_path) (os_remove workbook_path).

Definition in_project (project_name : string) (w : workbook_item) : bool :=
  bool_decide (w_project_name w = Some project_name).

Definition _download_all_workbooks (project_name : string) : io σ unit :=
  workbooks ← call WorkbooksGet workbooks_get;
  let project_workbooks := List.filter (in_project project_name) workbooks in
  match project_workbooks with
  | [] => say st_warning "No workbooks found in project '{}'" [Str project_name]
  | _ =>
      say st_success "Found {} workbooks in '{}'"
        [Num (Z.of_nat (length project_workbooks)); Str project_name];;
      for_each
        (λ wb, try_except
                 (fetch_and_offer wb (w_name wb +:+ ".twbx"))
                 (λ e, say st_error "Failed to download '{}': {}"
                         [Str (w_name wb); Str (str_e e)]))
        project_workbooks;;
      say st_toast "Downloaded {} workbooks!"
        [Num (Z.of_nat (length project_workbooks))]
  end.

(** [next(w for w in project_workbooks if w.name == selected_workbook)]. *)
Definition next_named (selected_workbook : string)
    (project_workbooks : list workbook_item) : py workbook_item :=
  match List.find (λ w, String.eqb (w_name w) selected_workbook) project_workbooks with
  | Some w => Got w
  | None => Fault (OtherException EmptyString)   (* StopIteration *)
  end.

Definition _download_single_workbook (project_name : string) (button : bool)
    : io σ unit :=
  workbooks ← call WorkbooksGet workbooks_get;
  let project_workbooks := List.filter (in_project project_name) workbooks in
  match project_workbooks with
  | [] => say st_warning "No workbooks found in project '{}'" [Str project_name]
  | _ =>
      let workbook_names := map w_name project_workbooks in
      let selected_workbook := selectbox workbook_names in
      workbook ← lift (next_named selected_workbook project_workbooks);
      if button then
        try_except
          (fetch_and_offer workbook (selected_workbook +:+ ".twbx");;
           say st_toast "Downloaded '{}' successfully!" [Str selected_workbook])
          (λ e, say st_error "Download failed: {}" [Str (str_e e)])
      else mret tt
  end.

Definition _search_and_download_workbooks (project_name : string)
    (search_query : string) (checkbox : workbook_item → bool) (button : bool)
    : io σ unit :=
  workbooks ← call WorkbooksGet workbooks_get;
  let project_workbooks := List.filter (in_project project_name) workbooks in
  let project_workbooks :=
    if String.eqb search_query EmptyString then project_workbooks
    else List.filter (λ w, contains (lower search_query) (lower (w_name w)))
           project_workbooks in
  match project_workbooks with
  | [] => say st_warning "No matching workbooks found" []
  | _ =>
      say st_success "Found {} matching workbooks"
        [Num (Z.of_nat (length project_workbooks))];;
      let selected_workbooks := List.filter checkbox project_workbooks in
      match selected_workbooks with
      | [] => mret tt
      | _ =>
          if button then
            for_each
              (λ wb, try_except
                       (fetch_and_offer wb (w_name wb +:+ ".twbx"))
                       (λ e, say st_error "Failed to download '{}': {}"
                               [Str (w_name wb); Str (str_e e)]))
              selected_workbooks;;
            say st_toast "Downloaded {} workbooks!"
              [Num (Z.of_nat (length selected_workbooks))]
          else mret tt
      end
  end.

Definition download_workbooks (a : auth) (option : download_option)
    (search_query : string) (checkbox : workbook_item → bool) (button : bool)
    : io σ unit :=
  try_except
    (connect_to_tableau_url a;;
     say st_toast "Connection established successfully!" [];;
     projects ← call ProjectsGet projects_get;
     match projects with
     | [] => say st_error "No projects found on this site!" []
     | _ =>
         let project_names := map p_name projects in
         let selected_project := selectbox project_names in
         match option with
         | AllFromProject => _download_all_workbooks selected_project
         | SpecificWorkbook => _download_single_workbook selected_project button
         | SearchAndDownload =>
             _search_and_download_workbooks selected_project search_query checkbox button
         end;;
         call SignOut sign_out;;
         say st_toast "Session ended successfully" []
     end)
    (λ e, match e with
          | ServerResponseError msg => say st_error "Tableau Server error: {}" [Str msg]
          | OtherException msg => say st_error "Unexpected error: {}" [Str msg]
          end).
End Styled.

(** ** A small site, for instances of the statements *)

Definition toy_user : user_item :=
  {| u_name := Str "ann"; u_fullname := Str "Ann Lee"; u_email := Str "ann@x.com";
     u_site_role := Str "Viewer"; u_last_login := NaN |}.

Definition toy_group : group_item := {| g_name := Str "Sales, EMEA"; g_id := Str "g-1" |}.

Definition toy_project : project_item :=
  {| p_name := "Sales"; p_description := NaN; p_content_permissions := Str "ManagedByOwner" |}.

Definition toy_workbook (name id project : string) : workbook_item :=
  {| w_name := name; w_id := id; w_owner_id := Str "u-1";
     w_project_name := Some project; w_created_at := Str "2024-01-01";
     w_updated_at := Str "2024-02-01" |}.

Definition toy_workbooks : list workbook_item :=
  [toy_workbook "Quarter" "w-1" "Sales"; toy_workbook "Budget" "w-2" "Ops";
   toy_workbook "Quarter" "w-3" "Sales"].

(** The world is the number of changes made to the site. With [broken],
    the listing of the groups and every download raise. *)
Definition toy_site (broken : bool) : Tableau nat :=
  {| sign_in := λ _ n, (Got tt, n);
     sign_out := λ n, (Got tt, n);
     users_get := λ n, (Got [toy_user], n);
     groups_get := λ n,
       if broken then (Fault (ServerResponseError "503"), n) else (Got [toy_group], n);
     projects_get := λ n, (Got [toy_project], n);
     workbooks_get := λ n, (Got toy_workbooks, n);
     datasources_get := λ n, (Got [], n);
     users_add := λ _ n, (Got tt, S n);
     groups_create := λ _ n, (Got tt, S n);
     workbooks_download := λ id n,
       if broken then (Fault (OtherException "timed out"), n)
       else (Got ("/tmp/" +:+ id), n);
     read_file := λ path n, (Got ("content of " +:+ path), n);
     os_remove := λ _ n, (Got tt, n) |}.

(** A site with the given projects whose listing of the workbooks raises. *)
Definition bare_site (projects : list project_item) (e : exception) : Tableau nat :=
  {| sign_in := λ _ n, (Got tt, n);
     sign_out := λ n, (Got tt, n);
     users_get := λ n, (Got [], n);
     groups_get := λ n, (Got [], n);
     projects_get := λ n, (Got projects, n);
     workbooks_get := λ n, (Fault e, n);
     datasources_get := λ n, (Got [], n);
     users_add := λ _ n, (Got tt, S n);
     groups_create := λ _ n, (Got tt, S n);
     workbooks_download := λ id n, (Got ("/tmp/" +:+ id), n);
     read_file := λ path n, (Got ("content of " +:+ path), n);
     os_remove := λ _ n, (Got tt, n) |}.

(** Lower case and strip on the letters and the space of ASCII. *)
Definition ascii_lower_char (c : ascii) : ascii :=
  let n := nat_of_ascii c in
  if (65 <=? n)%nat && (n <=? 90)%nat then ascii_of_nat (n + 32) else c.

Fixpoint ascii_lower (s : string) : string :=
  match s with
  | EmptyString => EmptyString
  | String c rest => String (ascii_lower_char c) (ascii_lower rest)
  end.

Fixpoint lstrip_spaces (s : string) : string :=
  match s with
  | String " " rest => lstrip_spaces rest
  | _ => s
  end.

Fixpoint rstrip_spaces (s : string) : string :=
  match s with
  | EmptyString => EmptyString
  | String c rest =>
      match rstrip_spaces rest with
      | EmptyString => if Ascii.eqb c " " then EmptyString else String c EmptyString
      | kept => String c kept
      end
  end.

Definition strip_spaces (s : string) : string := rstrip_spaces (lstrip_spaces s).

Definition first_option (options : list string) : string :=
  hd EmptyString options.

Definition toy_auth : auth := PersonalAccessTokenAuth "token" "secret" EmptyString.

Definition toy_row : series :=
  [("Name", Str "ann"); ("NAME", Str "bob"); ("Site_Role", Str "Viewer");
   ("Email", NaN); ("Notes", Str "x")].

Definition toy_group_row : series :=
  [("Id", Num 7); ("Blank", Str "   "); ("Group", Str "  Sales  ")].

(** * Properties *)

(** ** Substring containment *)

Lemma append_cons (c : ascii) (p b : string) :
  String c p +:+ b = String c (p +:+ b).
Proof. reflexivity. Qed.

Lemma append_nil (b : string) : EmptyString +:+ b = b.
Proof. reflexivity. Qed.

Lemma prefix_spec (p s : string) :
  String.prefix p s = true ↔ ∃ b, s = p +:+ b.
Proof.
  revert s. induction p as [|c p IH]; intros s; simpl.
  - split; [intros _; by exists s | by destruct s].
  - destruct s as [|d s]; simpl.
    + split; [done | intros [b Hb]; discriminate].
    + destruct (Ascii.ascii_dec c d) as [->|Hne].
      * rewrite IH. split; intros [b Hb]; exists b;
          rewrite append_cons in *; congruence.
      * split; [done | intros [b Hb]; rewrite append_cons in Hb; congruence].
Qed.

Lemma contains_unfold (p s : string) :
  contains p s
  = String.prefix p s
    || match s with EmptyString => false | String _ rest => contains p rest end.
Proof. by destruct s. Qed.

Lemma contains_spec (p s : string) :
  contains p s = true ↔ substring p s.
Proof.
  induction s as [|c s IH]; rewrite contains_unfold, orb_true_iff, prefix_spec.
  - split.
    + intros [[b Hb]|?]; [by exists EmptyString, b | done].
    + intros ([|x a] & b & Hab); [left; by exists b | discriminate].
  - rewrite IH. split.
    + intros [[b Hb]|(a & b & ->)]; [by exists EmptyString, b|].
      by exists (String c a), b.
    + intros ([|x a] & b & Hab); [left; by exists b | right].
      rewrite append_cons in Hab. injection Hab as -> ->. by exists a, b.
Qed.

Lemma contains_false (p s : string) :
  contains p s = false ↔ ¬ substring p s.
Proof.
  rewrite <- contains_spec. destruct (contains p s); naive_solver.
Qed.

(** ** The loop body *)

Lemma loop_body_text (r : row) (s : string) :
  site_role_of r = Str s →
  loop_body r = Ok (record_of (email_of r) (lookup_role s)).
Proof.
  unfold site_role_of, email_of, loop_body, lookup_role. intros ->. simpl.
  repeat (match goal with |- context [contains ?p s] =>
            destruct (contains p s); simpl; try reflexivity end).
Qed.

Lemma loop_body_not_text (r : row) :
  ¬ text_role r → loop_body r = Raise TypeError.
Proof.
  unfold text_role, site_role_of, loop_body. intros Hno.
  destruct (get r "Site Role" (Str EmptyString)) as [s| |z]; simpl; try done.
  destruct Hno; by exists s.
Qed.

Lemma main_loop_body_eq (r : row) : main_loop_body r = loop_body r.
Proof. reflexivity. Qed.

Lemma text_role_dec (r : row) : text_role r ∨ ¬ text_role r.
Proof.
  unfold text_role. destruct (site_role_of r) as [s| |z];
    [left; by exists s | right; intros [? ?]; discriminate ..].
Qed.

(** ** The loop *)

Lemma for_rows_ext (f g : row → result record) rows acc :
  (∀ r, f r = g r) → for_rows f rows acc = for_rows g rows acc.
Proof.
  intros Hfg. revert acc. induction rows as [|r rows IH]; intros acc; simpl; [done|].
  rewrite Hfg. destruct (g r); simpl; [apply IH | done].
Qed.

Lemma for_rows_map (body : row → result record) (f : row → record) rows acc :
  Forall (λ r, body r = Ok (f r)) rows →
  for_rows body rows acc = Ok (acc ++ map f rows).
Proof.
  intros Hall. revert acc.
  induction Hall as [|r rows Hr _ IH]; intros acc; simpl.
  - by rewrite app_nil_r.
  - rewrite Hr. simpl. rewrite IH, <- app_assoc. done.
Qed.

Lemma for_rows_Ok (body : row → result record) rows acc out :
  for_rows body rows acc = Ok out →
  ∃ recs, out = acc ++ recs ∧ Forall2 (λ r rec, body r = Ok rec) rows recs.
Proof.
  revert acc. induction rows as [|r rows IH]; intros acc; simpl.
  - intros [= <-]. exists []. by rewrite app_nil_r.
  - destruct (body r) as [rec|e] eqn:Hr; simpl; [|done].
    intros (recs & -> & Hrecs)%IH. exists (rec :: recs).
    rewrite <- app_assoc. split; [done | by constructor].
Qed.

Lemma for_rows_raise rows acc :
  Exists (λ r, ¬ text_role r) rows →
  for_rows loop_body rows acc = Raise TypeError.
Proof.
  intros Hex. revert acc.
  induction Hex as [r rows Hr | r rows _ IH]; intros acc; simpl.
  - by rewrite loop_body_not_text.
  - destruct (text_role_dec r) as [[s Hs]|Hr].
    + rewrite (loop_body_text r s Hs). simpl. apply IH.
    + by rewrite loop_body_not_text.
Qed.

Lemma for_rows_expected rows :
  Forall text_role rows →
  for_rows loop_body rows [] = Ok (map expected_record rows).
Proof.
  intros Hall. apply (for_rows_map loop_body expected_record rows []).
  eapply Forall_impl; [exact Hall|]. intros r [s Hs]. simpl.
  unfold expected_record. rewrite Hs. by apply loop_body_text.
Qed.

(** ** The mapping table *)

Lemma row_applies_unique (i j : nat) (s : string) :
  row_applies i s → row_applies j s → i = j.
Proof.
  intros [Hi Hi'] [Hj Hj'].
  destruct (lt_eq_lt_dec i j) as [[Hlt|Heq]|Hgt]; [|done|].
  - destruct (Hj' i Hlt Hi).
  - destruct (Hi' j Hgt Hj).
Qed.

Ltac earlier_rows :=
  let j := fresh "j" in
  let Hj := fresh "Hj" in
  intros j Hj;
  repeat (destruct j as [|j]; [unfold row_holds; simpl; by apply contains_false|]);
  lia.

Lemma lookup_role_applies (s : string) :
  ∃ i, row_applies i s ∧ lookup_role s = row_result i s.
Proof.
  unfold lookup_role. simpl.
  destruct (contains "SiteAdministratorCreator" s) eqn:H0.
  { exists 0. repeat split; [by apply contains_spec | earlier_rows]. }
  destruct (contains "ExplorerCanPublish" s) eqn:H1.
  { exists 1. repeat split; [by apply contains_spec | earlier_rows]. }
  destruct (contains "Viewer" s) eqn:H2.
  { exists 2. repeat split; [by apply contains_spec | earlier_rows]. }
  destruct (contains "SiteAdministratorExplorer" s) eqn:H3.
  { exists 3. repeat split; [by apply contains_spec | earlier_rows]. }
  exists 4. repeat split; [|earlier_rows].
  intros p res Hin. unfold mapping_table in Hin.
  repeat (apply elem_of_cons in Hin as [[= -> ->]|Hin]; [by apply contains_false|]).
  by apply elem_of_nil in Hin.
Qed.

(** ** The csv writer *)




Lemma lookup_role_flags (s : string) :
  ∃ role scope publish,
    lookup_role s = (role, scope, publish)
    ∧ (scope = "site" ∨ scope = "None")
    ∧ (publish = "True" ∨ publish = "False")
    ∧ (scope = "site" → publish = "True").
Proof.
  unfold lookup_role, pass_through. simpl.
  repeat (match goal with |- context [contains ?p s] =>
            destruct (contains p s); simpl end);
    eexists _, _, _; (split; [reflexivity|]); naive_solver.
Qed.

Lemma loop_body_scope (r : row) (rec : record) :
  loop_body r = Ok rec →
  rec !! 4 = Some (Str "site") → rec !! 5 = Some (Str "True").
Proof.
  destruct (text_role_dec r) as [[s Hs]|Hr].
  - rewrite (loop_body_text r s Hs). intros [= <-].
    destruct (lookup_role_flags s) as (role & scope & publish & -> & _ & _ & Himp).
    simpl. intros [= ->]. by rewrite Himp.
  - by rewrite loop_body_not_text.
Qed.

Lemma same_fields_loop_body (r1 r2 : row) :
  same_fields r1 r2 → loop_body r1 = loop_body r2.
Proof.
  unfold same_fields, email_of, site_role_of, loop_body. by intros [-> ->].
Qed.

Lemma same_fields_for_rows (df1 df2 : list row) acc :
  Forall2 same_fields df1 df2 →
  for_rows loop_body df1 acc = for_rows loop_body df2 acc.
Proof.
  intros H. revert acc. induction H as [|r1 r2 df1 df2 Hr _ IH]; intros acc; [done|].
  simpl. rewrite (same_fields_loop_body r1 r2 Hr).
  destruct (loop_body r2); simpl; [apply IH | done].
Qed.


Lemma loop_body_fields (r : row) (rec : record) :
  loop_body r = Ok rec →
  rec !! 0 = Some (email_of r)
  ∧ rec !! 1 = Some (Str EmptyString)
  ∧ rec !! 2 = Some (Str EmptyString).
Proof.
  destruct (text_role_dec r) as [[s Hs]|Hr].
  - rewrite (loop_body_text r s Hs). intros [= <-].
    by destruct (lookup_role s) as [[? ?] ?].
  - by rewrite loop_body_not_text.
Qed.

(** ** Reading back what the csv writer wrote *)

Lemma append_assoc_str (a b c : string) : (a +:+ b) +:+ c = a +:+ (b +:+ c).
Proof. induction a as [|x a IH]; [done|]. by rewrite !append_cons, IH. Qed.

Lemma append_nil_r_str (s : string) : s +:+ EmptyString = s.
Proof. induction s as [|c s IH]; [done|]. by rewrite append_cons, IH. Qed.

Lemma run_app (r : reader) (a b : string) :
  run r (a +:+ b)
  = match run r a with
    | Some r' => run r' b
    | None => None
    end.
Proof.
  revert r. induction a as [|c a IH]; intros r; [done|].
  rewrite append_cons. simpl. destruct (step r c); [apply IH | done].
Qed.

Lemma ordinary_spec (c : ascii) :
  ordinary c = true →
  Ascii.eqb c "," = false ∧ Ascii.eqb c "034" = false
  ∧ Ascii.eqb c "010" = false ∧ Ascii.eqb c "013" = false.
Proof.
  unfold ordinary. rewrite negb_true_iff, !orb_false_iff. tauto.
Qed.

(** Inside quotes the reader undoes the doubling of the writer. *)
Lemma run_doubled (f : string) (g : string) fs recs :
  run {| at_ := InQuoted; field := g; fields := fs; records := recs |}
      (double_quotes f)
  = Some {| at_ := InQuoted; field := g +:+ f; fields := fs; records := recs |}.
Proof.
  revert g. induction f as [|c f IH]; intros g.
  - simpl. by rewrite append_nil_r_str.
  - simpl. destruct (Ascii.eqb c dquote) eqn:Hc.
    + apply Ascii.eqb_eq in Hc as ->. simpl.
      unfold add_char. simpl. rewrite IH.
      by rewrite append_assoc_str.
    + simpl. unfold step. simpl. unfold dquote in Hc. rewrite Hc.
      unfold add_char. simpl. rewrite IH. by rewrite append_assoc_str.
Qed.

(** Outside quotes ordinary characters are taken as they come. *)
Lemma run_ordinary (f : string) (r : reader) :
  plain_text f = true →
  at_ r = StartRecord ∨ at_ r = StartField ∨ at_ r = InField →
  run r f
  = Some match f with
         | EmptyString => r
         | _ => {| at_ := InField; field := field r +:+ f;
                   fields := fields r; records := records r |}
         end.
Proof.
  revert r. induction f as [|c f IH]; intros r Hf Hr; [done|].
  unfold plain_text in Hf. simpl in Hf. apply andb_true_iff in Hf as [Hc Hf].
  apply ordinary_spec in Hc as (Hc1 & Hc2 & Hc3 & Hc4).
  assert (step r c = Some (add_char InField r c)) as Hstep.
  { unfold step, step_plain.
    destruct Hr as [-> | [-> | ->]]; by rewrite ?Hc1, ?Hc2, ?Hc3, ?Hc4. }
  simpl. rewrite Hstep. rewrite IH; [|done|by right; right].
  f_equal. destruct f; [done|].
  unfold add_char. simpl. by rewrite append_assoc_str.
Qed.

Lemma unquoted_plain os (f : string) :
  needs_quote os f = false → no_bare_return os f = true → plain_text f = true.
Proof.
  assert (no_bare_return os f
          = match os with
            | Posix => forallb (λ c, negb (Ascii.eqb c "013")) (list_ascii_of_string f)
            | Windows => true
            end) as -> by done.
  unfold needs_quote, plain_text.
  induction (list_ascii_of_string f) as [|c l IH]; [done|].
  simpl. intros [Hc Hl]%orb_false_iff Hcr.
  unfold special, comma, dquote in Hc.
  apply orb_false_iff in Hc as [[Hc1 Hc2]%orb_false_iff Hc3].
  apply andb_true_iff. split.
  - unfold ordinary. rewrite Hc1, Hc2. destruct os; simpl in *.
    + unfold LF in Hc3. rewrite orb_false_r in Hc3. rewrite Hc3. simpl.
      by apply andb_true_iff in Hcr as [-> _].
    + unfold LF, CR in Hc3. rewrite orb_false_r in Hc3.
      by apply orb_false_iff in Hc3 as [-> ->].
  - apply IH; [done|]. destruct os; [|done].
    simpl in Hcr. by apply andb_true_iff in Hcr as [_ ->].
Qed.

(** One written field, read from the start of a record or of a field: the
    reader holds the field, and stands where a comma or a line end is
    understood. *)
Lemma field_read os (f : string) (m : mode) fs recs :
  no_bare_return os f = true →
  m = StartRecord ∨ m = StartField →
  ∃ m', run {| at_ := m; field := EmptyString; fields := fs; records := recs |}
            (write_field os f)
        = Some {| at_ := m'; field := f; fields := fs; records := recs |}
        ∧ ((m' = m ∧ f = EmptyString) ∨ m' = InField ∨ m' = AfterQuote).
Proof.
  intros Hcr Hm. unfold write_field.
  destruct (needs_quote os f) eqn:Hq.
  - exists AfterQuote. split; [|tauto].
    assert (step {| at_ := m; field := EmptyString; fields := fs; records := recs |}
                 dquote
            = Some {| at_ := InQuoted; field := EmptyString; fields := fs;
                      records := recs |}) as Hstep
      by (by destruct Hm as [-> | ->]).
    simpl. rewrite Hstep, run_app, run_doubled. reflexivity.
  - rewrite run_ordinary; [|by eapply unquoted_plain|simpl; tauto].
    destruct f; [exists m | exists InField]; (split; [done | tauto]).
Qed.

Lemma comma_read (m : mode) f fs recs :
  m ≠ InQuoted →
  step {| at_ := m; field := f; fields := fs; records := recs |} ","
  = Some {| at_ := StartField; field := EmptyString; fields := fs ++ [f];
            records := recs |}.
Proof. by destruct m. Qed.

Lemma linesep_read os (m : mode) f fs recs :
  m = StartField ∨ m = InField ∨ m = AfterQuote →
  run {| at_ := m; field := f; fields := fs; records := recs |} (linesep os)
  = Some {| at_ := StartRecord; field := EmptyString; fields := [];
            records := recs ++ [fs ++ [f]] |}.
Proof. by intros [-> | [-> | ->]]; destruct os. Qed.

Lemma concat_cons2 (sep x y : string) (l : list string) :
  String.concat sep (x :: y :: l) = x +:+ sep +:+ String.concat sep (y :: l).
Proof. reflexivity. Qed.

(** One written row is read as one record. *)
Lemma record_read os (f : string) (rest : list string) (m : mode) fs recs :
  forallb (no_bare_return os) (f :: rest) = true →
  m = StartField ∨ (m = StartRecord ∧ rest ≠ []) →
  run {| at_ := m; field := EmptyString; fields := fs; records := recs |}
      (String.concat "," (map (write_field os) (f :: rest)) +:+ linesep os)
  = Some {| at_ := StartRecord; field := EmptyString; fields := [];
            records := recs ++ [fs ++ f :: rest] |}.
Proof.
  revert f m fs. induction rest as [|g rest IH]; intros f m fs Hcr Hm.
  - simpl in Hcr. apply andb_true_iff in Hcr as [Hf _].
    destruct Hm as [-> | [_ ?]]; [|done].
    destruct (field_read os f StartField fs recs Hf) as (m' & Hrun & Hm');
      [tauto|].
    simpl. rewrite run_app, Hrun. apply linesep_read. tauto.
  - cbn [forallb] in Hcr. apply andb_true_iff in Hcr as [Hf Hcr].
    destruct (field_read os f m fs recs Hf) as (m' & Hrun & Hm'); [tauto|].
    rewrite map_cons, map_cons, concat_cons2, <- map_cons.
    rewrite !append_assoc_str, run_app, Hrun.
    rewrite append_cons, append_nil.
    cbn [run]. rewrite comma_read.
    + rewrite IH; [|done|by left]. by rewrite <- app_assoc.
    + destruct Hm' as [[-> _] | [-> | ->]]; [|done..].
      by destruct Hm as [-> | [-> _]].
Qed.

Lemma concat_empty_cons (x : string) (l : list string) :
  String.concat EmptyString (x :: l) = x +:+ String.concat EmptyString l.
Proof. destruct l; [by rewrite append_nil_r_str | reflexivity]. Qed.



(** ** The layout of the download *)













(** * The claims *)

(** C1. For a row whose site role is the string [s], the record appended by
    the loop is the e-mail, two empty fields and the result of the first
    table row whose pattern occurs in [s] (character-exact substring
    containment, rows tried top to bottom); when no pattern occurs the role
    is [s] itself with scope None and publish flag False. *)
Theorem role_mapping_first_match (r : row) (s : string) :
  site_role_of r = Str s →
  ∃ i, row_applies i s
       ∧ loop_body r = Ok (record_of (email_of r) (row_result i s)).
Proof.
  intros Hs. destruct (lookup_role_applies s) as (i & Hi & Heq).
  exists i. split; [done|]. rewrite <- Heq. by apply loop_body_text.
Qed.

(** C2, as the code has it. A frame of N rows whose site roles are all
    text (a missing Site Role column counting as the empty string) is
    converted into exactly N records, which are the ones offered for
    download; and for every frame, whenever the loop finishes it has
    appended exactly one record per row. *)
Theorem row_count_preserved os format_num (df : list row) :
  (Forall text_role df →
   ∃ recs, for_rows loop_body df [] = Ok recs
           ∧ length recs = length df
           ∧ convert_excel_to_csv os format_num (Some (Ok df))
             = converted (to_csv os format_num recs))
  ∧ (∀ recs, for_rows loop_body df [] = Ok recs → length recs = length df).
Proof.
  split.
  - intros Hall. exists (map expected_record df).
    pose proof (for_rows_expected df Hall) as Hrun.
    split; [done|]. split; [by rewrite length_map|].
    unfold convert_excel_to_csv. by rewrite Hrun.
  - intros recs (recs' & -> & Hall)%for_rows_Ok.
    symmetry. by eapply Forall2_length.
Qed.

(** C3, as the code has it. A row without a Site Role column gets the
    empty string and takes the pass-through branch. A site role that is
    present but is not a string (the NaN of a blank cell, a number) is not
    coerced: the containment test raises TypeError, the conversion stops
    with an error message and nothing is offered for download. *)
Theorem absent_role_defaults_non_text_aborts os format_num :
  (∀ r : row, r !! "Site Role" = None →
     loop_body r = Ok (record_of (email_of r) (pass_through EmptyString)))
  ∧ (∀ df, Exists (λ r, ¬ text_role r) df →
       for_rows loop_body df [] = Raise TypeError
       ∧ convert_excel_to_csv os format_num (Some (Ok df))
         = [preview; error TypeError]).
Proof.
  split.
  - intros r Hr. apply (loop_body_text r EmptyString).
    unfold site_role_of, get. by rewrite Hr.
  - intros df Hex. pose proof (for_rows_raise df [] Hex) as Hrun.
    split; [done|]. unfold convert_excel_to_csv. by rewrite Hrun.
Qed.

(** C4. Whenever the loop finishes, record i starts with the e-mail of
    row i, unchanged (the empty string when the row has no Email column),
    followed by two empty strings. *)
Theorem email_and_blank_fields (df : list row) (recs : list record) :
  for_rows loop_body df [] = Ok recs →
  ∀ i r, df !! i = Some r →
    ∃ rec, recs !! i = Some rec
           ∧ rec !! 0 = Some (email_of r)
           ∧ rec !! 1 = Some (Str EmptyString)
           ∧ rec !! 2 = Some (Str EmptyString).
Proof.
  intros (recs' & -> & Hall)%for_rows_Ok i r Hi.
  destruct (Forall2_lookup_l _ _ _ _ _ Hall Hi) as (rec & Hrec & Hbody).
  exists rec. split; [done|]. by apply loop_body_fields.
Qed.

(** C5. Each of the five one-row scenarios yields exactly the stated line,
    closed by the line terminator. *)
Theorem concrete_scenarios os format_num :
  convert_excel_to_csv os format_num
    (Some (Ok [sample_row "a@x.com" "SiteAdministratorCreator"]))
  = converted ("a@x.com,,,Creator,site,True" +:+ linesep os)
  ∧ convert_excel_to_csv os format_num
      (Some (Ok [sample_row "b@x.com" "ExplorerCanPublish"]))
    = converted ("b@x.com,,,Explorer,None,True" +:+ linesep os)
  ∧ convert_excel_to_csv os format_num
      (Some (Ok [sample_row "c@x.com" "Viewer"]))
    = converted ("c@x.com,,,Viewer,None,False" +:+ linesep os)
  ∧ convert_excel_to_csv os format_num
      (Some (Ok [sample_row "d@x.com" "SiteAdministratorExplorer"]))
    = converted ("d@x.com,,,Explorer,site,True" +:+ linesep os)
  ∧ convert_excel_to_csv os format_num
      (Some (Ok [sample_row "e@x.com" "Unlicensed"]))
    = converted ("e@x.com,,,Unlicensed,None,False" +:+ linesep os).
Proof. destruct os; repeat split; vm_compute; reflexivity. Qed.

(** C6, as the code has it. A row without a Site Role column, or with the
    empty string in it, takes the pass-through branch (the last table row
    is the one that applies): the record is the Email cell as it stands
    (the empty string when the row has no Email column), three empty
    strings, None and False. A Site Role cell that is present but null
    (the NaN of a blank cell) is not defaulted: the first containment test
    raises TypeError and the row gives no record. *)
Theorem empty_role_pass_through (r : row) :
  (r !! "Site Role" = None ∨ r !! "Site Role" = Some (Str EmptyString) →
   row_applies 4 EmptyString
   ∧ (∀ e, r !! "Email" = Some e →
        loop_body r
        = Ok [e; Str EmptyString; Str EmptyString;
              Str EmptyString; Str "None"; Str "False"])
   ∧ (r !! "Email" = None →
        loop_body r
        = Ok [Str EmptyString; Str EmptyString; Str EmptyString;
              Str EmptyString; Str "None"; Str "False"]))
  ∧ (r !! "Site Role" = Some NaN → loop_body r = Raise TypeError).
Proof.
  split.
  - intros Hr.
    assert (loop_body r
            = Ok [default (Str EmptyString) (r !! "Email"); Str EmptyString;
                  Str EmptyString; Str EmptyString; Str "None"; Str "False"])
      as Hbody.
    { apply (loop_body_text r EmptyString).
      unfold site_role_of, get. by destruct Hr as [-> | ->]. }
    split; [|split].
    + destruct (lookup_role_applies EmptyString) as (i & Hi & _).
      assert (i = 4) as ->; [|done].
      destruct Hi as [Hi _]. unfold row_holds in Hi.
      do 4 (destruct i as [|i];
            [simpl in Hi; apply contains_spec in Hi; discriminate|]).
      destruct i; [done|]. simpl in Hi. destruct Hi as [[=] _].
    + intros e He. by rewrite Hbody, He.
    + intros He. by rewrite Hbody, He.
  - intros Hr. unfold loop_body, get. by rewrite Hr.
Qed.


(** C8. For every site role string exactly one row of the table applies
    under first match wins. The outcome of a run is a function of the
    e-mail and site role of each row alone: two frames that agree on them
    row by row, in particular two identical frames, give the same calls
    with the same text; and equal uploads give equal outcomes. *)
Theorem conversion_deterministic :
  (∀ s, ∃ i, row_applies i s ∧ ∀ j, row_applies j s → j = i)
  ∧ (∀ os format_num df1 df2, Forall2 same_fields df1 df2 →
       convert_excel_to_csv os format_num (Some (Ok df1))
       = convert_excel_to_csv os format_num (Some (Ok df2)))
  ∧ (∀ os format_num (u1 u2 : upload), u1 = u2 →
       convert_excel_to_csv os format_num u1
       = convert_excel_to_csv os format_num u2).
Proof.
  split; [|split].
  - intros s. destruct (lookup_role_applies s) as (i & Hi & _).
    exists i. split; [done|]. intros j Hj. by apply (row_applies_unique j i s).
  - intros os format_num df1 df2 H. unfold convert_excel_to_csv.
    by rewrite (same_fields_for_rows df1 df2 [] H).
  - by intros os format_num u1 u2 ->.
Qed.

(** C9. The loop inlined in [main] computes, row by row and for the whole
    frame, what the loop of [convert_excel_to_csv] computes, exceptions
    included, and a press of the convert button offers the same text for
    download. *)
Theorem converters_agree os format_num (df : list row) :
  (∀ r, main_loop_body r = loop_body r)
  ∧ for_rows main_loop_body df [] = for_rows loop_body df []
  ∧ downloads (main os format_num (Some (Ok df)) true)
    = downloads (convert_excel_to_csv os format_num (Some (Ok df))).
Proof.
  assert (for_rows main_loop_body df [] = for_rows loop_body df []) as Heq
    by (apply for_rows_ext, main_loop_body_eq).
  split; [apply main_loop_body_eq|]. split; [done|].
  unfold main, convert_excel_to_csv. rewrite Heq.
  by destruct (for_rows loop_body df []).
Qed.

(** C10. In every record produced by either converter, an admin scope
    (fifth field) equal to site comes with a publish flag (sixth field)
    equal to True. *)
Theorem site_scope_implies_publish (df : list row) (recs : list record) (rec : record) :
  for_rows loop_body df [] = Ok recs ∨ for_rows main_loop_body df [] = Ok recs →
  rec ∈ recs →
  rec !! 4 = Some (Str "site") →
  rec !! 5 = Some (Str "True").
Proof.
  intros Hrun Hin.
  assert (for_rows loop_body df [] = Ok recs) as Hrun'.
  { destruct Hrun as [?|Hm]; [done|].
    by rewrite <- (for_rows_ext main_loop_body loop_body df [] main_loop_body_eq). }
  apply for_rows_Ok in Hrun' as (recs' & -> & Hall).
  apply list_elem_of_lookup in Hin as [i Hi].
  destruct (Forall2_lookup_r _ _ _ _ _ Hall Hi) as (r & _ & Hr).
  by apply (loop_body_scope r).
Qed.

(** ** Instances *)

Lemma role_mapping_first_match_witness :
  ∃ i, row_applies i "Viewer"
       ∧ loop_body (sample_row "c@x.com" "Viewer")
         = Ok (record_of (email_of (sample_row "c@x.com" "Viewer"))
                 (row_result i "Viewer")).
Proof.
  apply (role_mapping_first_match (sample_row "c@x.com" "Viewer") "Viewer").
  vm_compute. reflexivity.
Defined.

Lemma sample_text_role (e s : string) : text_role (sample_row e s).
Proof. exists s. reflexivity. Defined.

Lemma row_count_preserved_witness :
  (∃ recs, for_rows loop_body
             [sample_row "a@x.com" "Viewer"; sample_row "b@x.com" "Unlicensed"] []
           = Ok recs
           ∧ length recs = 2
           ∧ convert_excel_to_csv Posix plain_format
               (Some (Ok [sample_row "a@x.com" "Viewer";
                          sample_row "b@x.com" "Unlicensed"]))
             = converted (to_csv Posix plain_format recs))
  ∧ length [record_of (Str "a@x.com") ("Viewer", "None", "False")] = 1.
Proof.
  split.
  - apply (proj1 (row_count_preserved Posix plain_format
             [sample_row "a@x.com" "Viewer"; sample_row "b@x.com" "Unlicensed"])).
    repeat constructor; apply sample_text_role.
  - apply (proj2 (row_count_preserved Posix plain_format
             [sample_row "a@x.com" "Viewer"])).
    vm_compute. reflexivity.
Defined.

(** C2, as the specification has it, fails on a frame of two rows whose
    second site role cell is blank: the loop raises at the second row, no
    record is kept and nothing is offered for download. *)
Lemma blank_role_loses_all_records :
  length [sample_row "b@x.com" "Viewer"; blank_role_row] = 2
  ∧ for_rows loop_body [sample_row "b@x.com" "Viewer"; blank_role_row] []
    = Raise TypeError
  ∧ downloads (convert_excel_to_csv Posix plain_format
                 (Some (Ok [sample_row "b@x.com" "Viewer"; blank_role_row]))) = []
  ∧ ¬ (∃ recs, for_rows loop_body
                 [sample_row "b@x.com" "Viewer"; blank_role_row] [] = Ok recs
               ∧ length recs = 2).
Proof.
  split; [reflexivity|]. split; [reflexivity|]. split; [reflexivity|].
  intros (recs & Hrun & _). vm_compute in Hrun. discriminate.
Qed.

(** C3, as the specification has it, fails on a blank site role cell: the
    cell is NaN, the loop raises, the run ends in the error message and no
    record is produced. *)
Lemma blank_role_aborts :
  site_role_of blank_role_row = NaN
  ∧ convert_excel_to_csv Posix plain_format (Some (Ok [blank_role_row]))
    = [preview; error TypeError]
  ∧ ¬ (∃ recs, for_rows loop_body [blank_role_row] [] = Ok recs
               ∧ length recs = 1).
Proof.
  split; [reflexivity|]. split; [reflexivity|].
  intros (recs & Hrun & _). vm_compute in Hrun. discriminate.
Qed.

Lemma absent_role_defaults_non_text_aborts_witness :
  loop_body no_role_row
  = Ok (record_of (email_of no_role_row) (pass_through EmptyString))
  ∧ for_rows loop_body [sample_row "b@x.com" "Viewer"; blank_role_row] []
    = Raise TypeError
  ∧ convert_excel_to_csv Posix plain_format
      (Some (Ok [sample_row "b@x.com" "Viewer"; blank_role_row]))
    = [preview; error TypeError].
Proof.
  destruct (absent_role_defaults_non_text_aborts Posix plain_format) as [Habsent Hnon].
  split.
  - apply Habsent. vm_compute. reflexivity.
  - apply Hnon. apply Exists_cons_tl, Exists_cons_hd.
    intros [s Hs]. vm_compute in Hs. discriminate.
Defined.

Lemma email_and_blank_fields_witness :
  ∃ rec, [record_of (Str "a@x.com") ("Viewer", "None", "False");
          record_of (Str EmptyString) ("Creator", "None", "False")] !! 1
         = Some rec
         ∧ rec !! 0 = Some (email_of (sample_row EmptyString "Creator"))
         ∧ rec !! 1 = Some (Str EmptyString)
         ∧ rec !! 2 = Some (Str EmptyString).
Proof.
  apply (email_and_blank_fields
           [sample_row "a@x.com" "Viewer"; sample_row EmptyString "Creator"]).
  - vm_compute. reflexivity.
  - reflexivity.
Defined.

(** C6, as the specification has it (a null site role counting as
    absent), fails on a row whose Site Role cell is blank: the cell is
    NaN, not the empty string, the row takes no branch at all and gives no
    record. *)
Lemma null_role_is_not_defaulted :
  null_role_row !! "Site Role" = Some NaN
  ∧ null_role_row !! "Email" = Some (Str "n@x.com")
  ∧ loop_body null_role_row = Raise TypeError
  ∧ loop_body null_role_row
    ≠ Ok [Str "n@x.com"; Str EmptyString; Str EmptyString;
          Str EmptyString; Str "None"; Str "False"].
Proof. repeat split. vm_compute. discriminate. Qed.

Lemma empty_role_pass_through_witness :
  (row_applies 4 EmptyString
   ∧ loop_body no_role_row
     = Ok [Str "a@x.com"; Str EmptyString; Str EmptyString;
           Str EmptyString; Str "None"; Str "False"])
  ∧ loop_body (<["Site Role" := Str EmptyString]> ∅)
    = Ok [Str EmptyString; Str EmptyString; Str EmptyString;
          Str EmptyString; Str "None"; Str "False"]
  ∧ loop_body null_role_row = Raise TypeError.
Proof.
  split; [|split].
  - destruct (proj1 (empty_role_pass_through no_role_row)) as (H4 & Hmail & _).
    + left. vm_compute. reflexivity.
    + split; [exact H4|]. apply Hmail. vm_compute. reflexivity.
  - destruct (proj1 (empty_role_pass_through (<["Site Role" := Str EmptyString]> ∅)))
      as (_ & _ & Hnone).
    + right. vm_compute. reflexivity.
    + apply Hnone. vm_compute. reflexivity.
  - apply (proj2 (empty_role_pass_through null_role_row)).
    vm_compute. reflexivity.
Defined.


Lemma conversion_deterministic_witness :
  convert_excel_to_csv Posix plain_format
    (Some (Ok [sample_row "a@x.com" "Viewer"]))
  = convert_excel_to_csv Posix plain_format
      (Some (Ok [<["Full Name" := Str "A"]> (sample_row "a@x.com" "Viewer")]))
  ∧ convert_excel_to_csv Windows plain_format (Some (Ok [blank_role_row]))
    = convert_excel_to_csv Windows plain_format (Some (Ok [blank_role_row])).
Proof.
  destruct conversion_deterministic as (_ & Hsame & Hrerun).
  split.
  - apply Hsame. repeat constructor; vm_compute; reflexivity.
  - apply Hrerun. reflexivity.
Defined.

Lemma site_scope_implies_publish_witness :
  [Str "d@x.com"; Str EmptyString; Str EmptyString;
   Str "Explorer"; Str "site"; Str "True"] !! 5 = Some (Str "True").
Proof.
  apply (site_scope_implies_publish
           [sample_row "d@x.com" "SiteAdministratorExplorer"]
           [[Str "d@x.com"; Str EmptyString; Str EmptyString;
             Str "Explorer"; Str "site"; Str "True"]]).
  - left. vm_compute. reflexivity.
  - apply list_elem_of_here.
  - reflexivity.
Defined.

(** * The rest of the two apps *)

(** ** Computations *)

(** A given action is not in an explicit list. *)
Ltac no_such_action :=
  simpl; rewrite ?not_elem_of_cons; repeat split; try done; apply not_elem_of_nil.

Lemma bind_run {σ A B} (m : io σ A) (f : A → io σ B) (s : σ) :
  (m ≫= f) s
  = match m s with
    | (Got a, s1, l1) =>
        match f a s1 with
        | (r, s2, l2) => (r, s2, l1 ++ l2)
        end
    | (Fault e, s1, l1) => (Fault e, s1, l1)
    end.
Proof. reflexivity. Qed.

Lemma bind_Got {σ A B} (m : io σ A) (f : A → io σ B) (s s1 : σ) a l1 :
  m s = (Got a, s1, l1) →
  (m ≫= f) s = ((f a s1).1.1, (f a s1).1.2, l1 ++ (f a s1).2).
Proof. intros Hm. rewrite bind_run, Hm. by destruct (f a s1) as [[? ?] ?]. Qed.

Lemma bind_Fault {σ A B} (m : io σ A) (f : A → io σ B) (s s1 : σ) e l1 :
  m s = (Fault e, s1, l1) → (m ≫= f) s = (Fault e, s1, l1).
Proof. intros Hm. by rewrite bind_run, Hm. Qed.

(** A loop whose body never raises never raises, and its actions are those
    of the iterations, one after the other. *)
Lemma for_each_safe {σ A} (body : A → io σ unit) (Q : A → list action → Prop)
    (xs : list A) (s : σ) :
  (∀ x s, ∃ s' l, body x s = (Got tt, s', l) ∧ Q x l) →
  ∃ s' ls, for_each body xs s = (Got tt, s', concat ls) ∧ Forall2 Q xs ls.
Proof.
  intros Hbody. revert s. induction xs as [|x xs IH]; intros s.
  - exists s, []. split; [done | constructor].
  - destruct (Hbody x s) as (s1 & l & Hx & HQ).
    destruct (IH s1) as (s2 & ls & Hxs & HQs).
    exists s2, (l :: ls). split; [|by constructor].
    simpl. rewrite bind_run, Hx, Hxs. reflexivity.
Qed.

(** ** Frames with a header *)

Lemma frame_width_uniform (n : nat) (rec : record) (data : list record) :
  Forall (λ rec, length rec = n) (rec :: data) →
  foldr (λ rec w, Nat.max (length rec) w) 0 (rec :: data) = n.
Proof.
  revert rec. induction data as [|rec' data IH]; intros rec Hall.
  - apply Forall_cons in Hall as [Hrec _]. simpl. lia.
  - apply Forall_cons in Hall as [Hrec Hall].
    specialize (IH rec' Hall). simpl in *. lia.
Qed.

Lemma DataFrame_uniform (data : list record) (columns : list string) :
  Forall (λ rec, length rec = length columns) data →
  DataFrame data columns = Got data.
Proof.
  intros Hall. destruct data as [|rec data]; [done|].
  unfold DataFrame. rewrite (frame_width_uniform _ _ _ Hall), Nat.eqb_refl.
  f_equal. rewrite <- (map_id (rec :: data)) at 2.
  apply map_ext_Forall. eapply Forall_impl; [exact Hall|].
  intros r Hr. simpl in *. by rewrite Hr, Nat.sub_diag, app_nil_r.
Qed.

Lemma frame_width_ge (rec : record) (data : list record) :
  rec ∈ data →
  (length rec <= foldr (λ rec w, Nat.max (length rec) w) 0 data)%nat.
Proof.
  induction data as [|rec' data IH]; intros Hin.
  - by apply elem_of_nil in Hin.
  - apply elem_of_cons in Hin as [->|Hin]; simpl; [lia|].
    specialize (IH Hin). lia.
Qed.

Lemma DataFrame_too_wide (data : list record) (columns : list string) (rec : record) :
  rec ∈ data → (length columns < length rec)%nat →
  ∃ e, DataFrame data columns = Fault e.
Proof.
  intros Hin Hlt. pose proof (frame_width_ge rec data Hin) as Hge.
  destruct data as [|rec' data]; [by apply elem_of_nil in Hin|].
  unfold DataFrame.
  destruct (Nat.eqb_spec (foldr (λ rec w, Nat.max (length rec) w) 0 (rec' :: data))
              (length columns)) as [Heq|_]; [lia|]. eauto.
Qed.

Lemma to_csv_download_uniform {σ} os format_num
    (data : list record) (headers : list string) (filename : string) (s : σ) :
  Forall (λ rec, length rec = length headers) data →
  to_csv_download os format_num data headers filename s
  = (Got tt, s, [Offer (to_csv_header os format_num headers data) filename "text/csv"]).
Proof.
  intros Hall. unfold to_csv_download, lift.
  by rewrite bind_run, (DataFrame_uniform data headers Hall).
Qed.

(** *** Reading a written table back *)

Lemma csv_record_read os (row : list string) recs :
  row ≠ [] →
  forallb (no_bare_return os) row = true →
  run {| at_ := StartRecord; field := EmptyString; fields := [];
         records := recs |}
      (csv_writerow os row)
  = Some {| at_ := StartRecord; field := EmptyString; fields := [];
            records := recs ++ [row] |}.
Proof.
  intros Hrow Hcr. destruct row as [|f [|g rest]]; [done| |].
  - destruct f as [|c f]; [by destruct os|].
    change (csv_writerow os [String c f])
      with (write_field os (String c f) +:+ linesep os).
    simpl in Hcr. apply andb_true_iff in Hcr as [Hf _].
    destruct (field_read os (String c f) StartRecord [] recs Hf)
      as (m' & Hrun & Hm'); [tauto|].
    rewrite run_app, Hrun. apply linesep_read.
    destruct Hm' as [[_ [=]] | ?]; tauto.
  - assert (csv_writerow os (f :: g :: rest) = writerow os (f :: g :: rest))
      as -> by (by destruct f).
    unfold writerow. by rewrite record_read; [|done|right].
Qed.

Lemma csv_rows_read os (rows : list (list string)) recs :
  Forall (λ row, row ≠ []) rows →
  forallb (forallb (no_bare_return os)) rows = true →
  run {| at_ := StartRecord; field := EmptyString; fields := [];
         records := recs |}
      (String.concat EmptyString (map (csv_writerow os) rows))
  = Some {| at_ := StartRecord; field := EmptyString; fields := [];
            records := recs ++ rows |}.
Proof.
  intros Hne. revert recs. induction Hne as [|row rows Hrow _ IH]; intros recs Hcr.
  - simpl. by rewrite app_nil_r.
  - cbn [forallb] in Hcr. apply andb_true_iff in Hcr as [Hr Hcr].
    rewrite map_cons, concat_empty_cons, run_app, csv_record_read by done.
    rewrite IH by done. by rewrite <- app_assoc.
Qed.

(** Text and missing values print as [cell_text] has them. *)
Lemma imap_textual (f : nat → cell → string) (rec : record) :
  (∀ j c, textual c = true → f j c = cell_text c) →
  forallb textual rec = true →
  imap f rec = map cell_text rec.
Proof.
  revert f. induction rec as [|c rec IH]; intros f Hf Hrec; [done|].
  simpl in *. apply andb_true_iff in Hrec as [Hc Hrec].
  f_equal; [by apply Hf | apply IH; [|done]]. intros j c'. apply Hf.
Qed.

Lemma format_textual format_num (data : list record) (rec : record) :
  forallb textual rec = true →
  format_record format_num data rec = map cell_text rec.
Proof. intros Hrec. apply imap_textual; [|done]. by intros j []. Qed.

Lemma printable_spec os (rows : list record) :
  printable os rows = true →
  Forall (λ rec, forallb textual rec = true) rows
  ∧ forallb (forallb (no_bare_return os)) (map (map cell_text) rows) = true.
Proof.
  unfold printable. induction rows as [|rec rows IH]; [by split|].
  cbn [forallb map]. intros [Hrec Hrows]%andb_true_iff.
  destruct (IH Hrows) as [Htext Hcr].
  assert (forallb textual rec = true
          ∧ forallb (no_bare_return os) (map cell_text rec) = true) as [? ?].
  { clear -Hrec. induction rec as [|c rec IH]; [by split|].
    cbn [forallb map] in *.
    apply andb_true_iff in Hrec as [[? ?]%andb_true_iff Hrec].
    destruct (IH Hrec). split; apply andb_true_iff; by split. }
  split; [by constructor | apply andb_true_iff; by split].
Qed.

(** A header and rows of its width, written and read back. *)
Lemma table_read os format_num (headers : list string) (data : list record) :
  headers ≠ [] →
  Forall (λ rec, length rec = length headers) data →
  forallb (no_bare_return os) headers = true →
  printable os data = true →
  read_csv (to_csv_header os format_num headers data)
  = Some (headers :: map (map cell_text) data).
Proof.
  intros Hne Hwidth Hhead [Htext Hcr]%printable_spec.
  unfold to_csv_header.
  assert (map (λ rec, csv_writerow os (format_record format_num data rec)) data
          = map (csv_writerow os) (map (map cell_text) data)) as ->.
  { rewrite map_map. apply map_ext_Forall. eapply Forall_impl; [exact Htext|].
    intros rec Hrec. simpl. by rewrite format_textual. }
  rewrite <- concat_empty_cons, <- map_cons.
  unfold read_csv. rewrite csv_rows_read; [done| |].
  - constructor; [done|]. apply Forall_map.
    eapply Forall_impl; [exact Hwidth|]. intros rec Hlen. simpl.
    destruct rec; [|done]. destruct headers; [done | discriminate].
  - cbn [forallb]. apply andb_true_iff. by split.
Qed.

(** X1. [to_csv_download] on text and missing values, in rows as long as
    the header list, changes nothing in the world and offers one file
    which, read back, holds the header record and then one record per row,
    in order, a missing value as an empty field; commas, double quotes and
    line breaks inside a value come back as they were. With no row the
    file holds the header record alone. A row longer than the header list
    makes it raise, and nothing is offered. *)
Theorem to_csv_download_offers_header_and_rows {σ} os format_num
    (data : list record) (headers : list string) (filename : string) (s : σ) :
  (headers ≠ [] →
   Forall (λ rec, length rec = length headers) data →
   forallb (no_bare_return os) headers = true →
   printable os data = true →
   ∃ text,
     to_csv_download os format_num data headers filename s
     = (Got tt, s, [Offer text filename "text/csv"])
     ∧ read_csv text = Some (headers :: map (map cell_text) data))
  ∧ (∀ rec, rec ∈ data → (length headers < length rec)%nat →
       ∃ e, to_csv_download os format_num data headers filename s = (Fault e, s, [])).
Proof.
  split.
  - intros Hne Hall Hhead Hdata.
    exists (to_csv_header os format_num headers data).
    split; [by rewrite to_csv_download_uniform | by apply table_read].
  - intros rec Hin Hlt.
    destruct (DataFrame_too_wide data headers rec Hin Hlt) as [e He].
    exists e. unfold to_csv_download, lift. by rewrite bind_run, He.
Qed.

(** ** Exports *)

Section ExportRuns.
Context {σ : Type} {site : Tableau σ}.
Context (os : platform) (format_num : list cell → Z → string).

(** A listing followed by [to_csv_download] of rows of the header width. *)
Lemma listing_then_table {A} (c : api) (op : σ → py (list A) * σ)
    (f : A → record) (headers : list string) (file_name : string) (s : σ) :
  (∀ x, length (f x) = length headers) →
  (items ← call c op;
   to_csv_download os format_num (map f items) headers file_name) s
  = match op s with
    | (Got items, s1) =>
        (Got tt, s1,
         [Call c;
          Offer (to_csv_header os format_num headers (map f items))
            file_name "text/csv"])
    | (Fault e, s1) => (Fault e, s1, [Call c])
    end.
Proof.
  intros Hwidth. rewrite bind_run. unfold call.
  destruct (op s) as [[items|e] s1]; [|done].
  rewrite to_csv_download_uniform; [done|].
  induction items as [|x items IH]; simpl; constructor; [apply Hwidth | exact IH].
Qed.

Lemma export_users_run (s : σ) :
  export_users os format_num s
  = match users_get s with
    | (Got users, s1) =>
        (Got tt, s1,
         [Call UsersGet;
          Offer (to_csv_header os format_num
                   ["Name"; "Full Name"; "Email"; "Site Role"; "Last Login"]
                   (map (λ u, [u_name u; u_fullname u; u_email u;
                               u_site_role u; u_last_login u]) users))
            "users.csv" "text/csv"])
    | (Fault e, s1) => (Fault e, s1, [Call UsersGet])
    end.
Proof. unfold export_users. by rewrite listing_then_table. Qed.

Lemma export_groups_run (s : σ) :
  export_groups os format_num s
  = match groups_get s with
    | (Got groups, s1) =>
        (Got tt, s1,
         [Call GroupsGet;
          Offer (to_csv_header os format_num ["Group Name"; "Group ID"]
                   (map (λ g, [g_name g; g_id g]) groups))
            "groups.csv" "text/csv"])
    | (Fault e, s1) => (Fault e, s1, [Call GroupsGet])
    end.
Proof. unfold export_groups. by rewrite listing_then_table. Qed.

Lemma export_projects_run (s : σ) :
  export_projects os format_num s
  = match projects_get s with
    | (Got projects, s1) =>
        (Got tt, s1,
         [Call ProjectsGet;
          Offer (to_csv_header os format_num
                   ["Name"; "Description"; "Content Permissions"]
                   (map (λ p, [Str (p_name p); p_description p;
                               p_content_permissions p]) projects))
            "projects.csv" "text/csv"])
    | (Fault e, s1) => (Fault e, s1, [Call ProjectsGet])
    end.
Proof. unfold export_projects. by rewrite listing_then_table. Qed.

Lemma export_workbooks_run (s : σ) :
  export_workbooks os format_num s
  = match workbooks_get s with
    | (Got workbooks, s1) =>
        (Got tt, s1,
         [Call WorkbooksGet;
          Offer (to_csv_header os format_num
                   ["Workbook Name"; "Owner ID"; "Project"; "Created At"; "Updated At"]
                   (map (λ w, [Str (w_name w); w_owner_id w;
                               from_option Str NaN (w_project_name w);
                               w_created_at w; w_updated_at w]) workbooks))
            "workbooks.csv" "text/csv"])
    | (Fault e, s1) => (Fault e, s1, [Call WorkbooksGet])
    end.
Proof. unfold export_workbooks. by rewrite listing_then_table. Qed.

Lemma export_datasources_run (s : σ) :
  export_datasources os format_num s
  = match datasources_get s with
    | (Got datasources, s1) =>
        (Got tt, s1,
         [Call DatasourcesGet;
          Offer (to_csv_header os format_num
                   ["Datasource Name"; "Owner ID"; "Project"; "Created At"; "Updated At"]
                   (map (λ d, [d_name d; d_owner_id d; d_project_name d;
                               d_created_at d; d_updated_at d]) datasources))
            "datasources.csv" "text/csv"])
    | (Fault e, s1) => (Fault e, s1, [Call DatasourcesGet])
    end.
Proof. unfold export_datasources. by rewrite listing_then_table. Qed.



Lemma offered_files_app (l1 l2 : list action) :
  offered_files (l1 ++ l2) = offered_files l1 ++ offered_files l2.
Proof. apply omap_app. Qed.

Lemma seq_signs_out (m k : io σ unit) (files1 files2 : list string) :
  offers_without_sign_out files1 m →
  signs_out_after files2 k →
  signs_out_after (files1 ++ files2) (m ;; k).
Proof.
  intros Hm Hk s. destruct (Hm s) as (r1 & s1 & l1 & Hrun1 & Hno & Hfiles1).
  destruct r1 as [[]|e].
  - destruct (Hk s1) as (r2 & s2 & l2 & Hrun2 & Hout & Hfiles2).
    exists r2, s2, (l1 ++ l2). split; [by rewrite bind_run, Hrun1, Hrun2|].
    split; [set_solver|]. intros [?|Hin]%elem_of_app; [done|].
    by rewrite offered_files_app, Hfiles1, Hfiles2.
  - exists (Fault e), s1, l1. split; [by rewrite bind_run, Hrun1|]. done.
Qed.

Lemma listing_offers_without_sign_out {A} (c : api) (op : σ → py (list A) * σ)
    (m : io σ unit) (table : list A → string) (file_name : string) :
  c ≠ SignOut →
  (∀ s, m s = match op s with
              | (Got items, s1) =>
                  (Got tt, s1, [Call c; Offer (table items) file_name "text/csv"])
              | (Fault e, s1) => (Fault e, s1, [Call c])
              end) →
  offers_without_sign_out [file_name] m.
Proof.
  intros Hc Hm s. rewrite Hm. destruct (op s) as [[items|e] s1];
    eexists _, _, _; (split; [reflexivity|]); (split; [|done]);
    rewrite ?not_elem_of_cons; repeat split;
    try congruence; try done; apply not_elem_of_nil.
Qed.

Lemma run_export_body :
  signs_out_after
    ["users.csv"; "groups.csv"; "projects.csv"; "workbooks.csv"; "datasources.csv"]
    (export_users os format_num;;
     export_groups os format_num;;
     export_projects os format_num;;
     export_workbooks os format_num;;
     export_datasources os format_num;;
     call SignOut sign_out;;
     say st_info "Signed out successfully." []).
Proof.
  apply (seq_signs_out _ _ ["users.csv"]).
  { eapply (listing_offers_without_sign_out UsersGet users_get); [done|].
    intros s. rewrite export_users_run. reflexivity. }
  apply (seq_signs_out _ _ ["groups.csv"]).
  { eapply (listing_offers_without_sign_out GroupsGet groups_get); [done|].
    intros s. rewrite export_groups_run. reflexivity. }
  apply (seq_signs_out _ _ ["projects.csv"]).
  { eapply (listing_offers_without_sign_out ProjectsGet projects_get); [done|].
    intros s. rewrite export_projects_run. reflexivity. }
  apply (seq_signs_out _ _ ["workbooks.csv"]).
  { eapply (listing_offers_without_sign_out WorkbooksGet workbooks_get); [done|].
    intros s. rewrite export_workbooks_run. reflexivity. }
  apply (seq_signs_out _ _ ["datasources.csv"] []).
  { eapply (listing_offers_without_sign_out DatasourcesGet datasources_get); [done|].
    intros s. rewrite export_datasources_run. reflexivity. }
  intros s. rewrite bind_run. unfold call.
  destruct (sign_out s) as [[[]|e] s1]; eexists _, _, _;
    (split; [reflexivity|]); (split; [|done]); intros _; apply list_elem_of_here.
Qed.

Lemma quiet_offers_without_sign_out (m : io σ unit) :
  (∀ s, ∃ r s' a, m s = (r, s', [a]) ∧ a ≠ Call SignOut
                  ∧ offered_files [a] = []) →
  offers_without_sign_out [] m.
Proof.
  intros Hm s. destruct (Hm s) as (r & s' & a & Hrun & Ha & Hnone).
  exists r, s', [a]. split; [done|]. split; [|done].
  rewrite not_elem_of_cons. split; [done | apply not_elem_of_nil].
Qed.

Lemma connect_quiet (a : auth) :
  offers_without_sign_out [] (connect_to_tableau a : io σ unit).
Proof.
  apply quiet_offers_without_sign_out. intros s.
  unfold connect_to_tableau, call. destruct (sign_in a s) as [r s'].
  by exists r, s', (Call SignIn).
Qed.

Lemma say_quiet (lvl : level) (msg : string) (args : list cell) :
  offers_without_sign_out [] (say lvl msg args : io σ unit).
Proof.
  apply quiet_offers_without_sign_out. intros s.
  by exists (Got tt), s, (Say lvl msg args).
Qed.

(** X3. [run_export] never raises. It signs out only after it has offered
    the five files, in the order users, groups, projects, workbooks,
    datasources; when it does not reach the sign-out (the sign-in or a
    listing raised) the session is left as it is and the run ends with
    the message that the connection failed. *)
Theorem run_export_signs_out_only_after_all_exports (a : auth) (s : σ) :
  returned (run_export os format_num a s) = Got tt
  ∧ (Call SignOut ∈ actions (run_export os format_num a s) →
       offered_files (actions (run_export os format_num a s))
       = ["users.csv"; "groups.csv"; "projects.csv"; "workbooks.csv";
          "datasources.csv"])
  ∧ (Call SignOut ∉ actions (run_export os format_num a s) →
       ∃ e, last (actions (run_export os format_num a s))
            = Some (Say st_error "Connection failed: {}" [Str e])).
Proof.
  pose proof (seq_signs_out _ _ [] _ (connect_quiet a)
                (seq_signs_out _ _ [] _
                   (say_quiet st_success "Connected successfully!" [])
                   run_export_body) s) as (r & s' & l & Hrun & Hout & Hfiles).
  unfold run_export, try_except. simpl in Hrun. rewrite Hrun.
  destruct r as [[]|e]; unfold returned, actions; simpl.
  - split; [done|]. split; [done|]. intros Hno. destruct Hno. by apply Hout.
  - split; [done|]. split.
    + intros [Hin|Hin]%elem_of_app; [|by apply list_elem_of_singleton in Hin].
      by rewrite offered_files_app, Hfiles, app_nil_r.
    + intros _. exists (str_e e). by rewrite last_snoc.
Qed.
End ExportRuns.

(** ** Rows of an uploaded CSV file *)

Lemma notna_spec (c : cell) : notna c = true ↔ c ≠ NaN.
Proof. destruct c; simpl; split; (done || congruence). Qed.

Lemma elem_of_dropna (row : series) (k : string) (v : cell) :
  (k, v) ∈ dropna row ↔ (k, v) ∈ row ∧ v ≠ NaN.
Proof.
  unfold dropna. rewrite !list_elem_of_In, filter_In. simpl.
  by rewrite notna_spec.
Qed.

Lemma elem_of_dict_set (k k' : string) (v v' : cell) (d : series) :
  (k', v') ∈ dict_set k v d → (k' = k ∧ v' = v) ∨ (k', v') ∈ d.
Proof.
  induction d as [|[k0 v0] d IH]; simpl.
  - intros [[= -> ->]|[]%elem_of_nil]%elem_of_cons. by left.
  - destruct (String.eqb_spec k k0) as [->|Hne].
    + intros [[= -> ->]|Hin]%elem_of_cons; [by left|]. right. by right.
    + intros [[= -> ->]|Hin]%elem_of_cons; [right; by left|].
      destruct (IH Hin) as [?|?]; [by left|]. right. by right.
Qed.

Lemma dict_set_keys (k k' : string) (v : cell) (d : series) :
  k' ∈ map fst (dict_set k v d) ↔ k' = k ∨ k' ∈ map fst d.
Proof.
  induction d as [|[k0 v0] d IH]; simpl.
  - rewrite elem_of_cons. split; (intros [?|?]; [by left | by right]).
  - destruct (String.eqb_spec k k0) as [->|Hne]; simpl;
      rewrite !elem_of_cons; [tauto|]. rewrite IH. tauto.
Qed.

Lemma fold_dict_set_elem (row acc : series) (k : string) (v : cell) :
  (k, v) ∈ fold_left (λ d kv, dict_set kv.1 kv.2 d) row acc →
  (k, v) ∈ acc ∨ (k, v) ∈ row.
Proof.
  revert acc. induction row as [|[k0 v0] row IH]; intros acc; simpl; [by left|].
  intros [Hin|Hin]%IH; [|right; by right].
  apply elem_of_dict_set in Hin as [[-> ->]|?]; [right; by left | by left].
Qed.

Lemma fold_dict_set_keys (row acc : series) (k : string) :
  k ∈ map fst (fold_left (λ d kv, dict_set kv.1 kv.2 d) row acc)
  ↔ k ∈ map fst acc ∨ k ∈ map fst row.
Proof.
  revert acc. induction row as [|[k0 v0] row IH]; intros acc; simpl.
  - split; [by left | by intros [?|[]%elem_of_nil]].
  - rewrite IH, dict_set_keys, elem_of_cons. simpl. tauto.
Qed.

Lemma elem_of_to_dict (row : series) (k : string) (v : cell) :
  (k, v) ∈ to_dict row → (k, v) ∈ row.
Proof. intros [[]%elem_of_nil|?]%fold_dict_set_elem. done. Qed.

Lemma to_dict_keys (row : series) (k : string) :
  k ∈ map fst (to_dict row) ↔ k ∈ map fst row.
Proof.
  unfold to_dict. rewrite fold_dict_set_keys. simpl.
  split; [by intros [[]%elem_of_nil|?] | by right].
Qed.

Lemma dict_set_fresh (k : string) (v : cell) (d : series) :
  k ∉ map fst d → dict_set k v d = d ++ [(k, v)].
Proof.
  induction d as [|[k0 v0] d IH]; simpl; [done|].
  rewrite not_elem_of_cons. intros [Hne Hnot].
  destruct (String.eqb_spec k k0) as [->|_]; [done|]. by rewrite IH.
Qed.

(** Distinct labels: the dict lists the row as it is. *)
Lemma to_dict_NoDup (row : series) :
  NoDup (map fst row) → to_dict row = row.
Proof.
  intros Hnd.
  assert (∀ acc, NoDup (map fst (acc ++ row)) →
            fold_left (λ d kv, dict_set kv.1 kv.2 d) row acc = acc ++ row) as H.
  { clear Hnd. induction row as [|[k v] row IH]; intros acc Hnd; simpl.
    - by rewrite app_nil_r.
    - rewrite dict_set_fresh.
      + rewrite IH, <- app_assoc; [done|]. by rewrite <- app_assoc.
      + rewrite map_app in Hnd. apply NoDup_app in Hnd as (_ & Hdisj & _).
        intros Hin. apply (Hdisj k Hin). simpl. by left. }
  by apply (H []).
Qed.

(** ** Imports of the minimal app *)

Section MinimalImports.
Context {σ : Type} {site : Tableau σ}.
Context (lower strip : string → string).

Lemma filter_snoc {A} (p : A → bool) (l : list A) (x : A) :
  List.filter p (l ++ [x]) = if p x then List.filter p l ++ [x] else List.filter p l.
Proof. rewrite List.filter_app. simpl. destruct (p x); [done | by rewrite app_nil_r]. Qed.

Lemma user_kwargs_lookup (row_dict : series) (k : string) :
  user_kwargs_of lower row_dict !! k
  = if bool_decide (k ∈ valid_keys) then last_value lower k row_dict else None.
Proof.
  unfold user_kwargs_of, last_value.
  induction row_dict as [|[label v] row_dict IH] using rev_ind.
  - simpl. rewrite lookup_empty. by destruct (bool_decide _).
  - rewrite fold_left_app, filter_snoc. simpl.
    destruct (String.eqb_spec (lower label) k) as [Heq|Hne].
    + rewrite Heq. destruct (bool_decide (k ∈ valid_keys)) eqn:Hk; [|done].
      by rewrite lookup_insert_eq, last_snoc.
    + destruct (bool_decide (lower label ∈ valid_keys)); [|done].
      by rewrite lookup_insert_ne.
Qed.

Lemma last_value_Some (row_dict : series) (k : string) (v : cell) :
  last_value lower k row_dict = Some v →
  ∃ label, (label, v) ∈ row_dict ∧ lower label = k.
Proof.
  unfold last_value. intros Hlast.
  destruct (last _) as [[label v']|] eqn:Hl; [|done].
  injection Hlast as ->. exists label.
  apply last_Some in Hl as [l' Hl].
  assert (In (label, v) (List.filter (λ kv, String.eqb (lower kv.1) k) row_dict)) as Hin
    by (rewrite Hl; apply in_or_app; right; by left).
  apply filter_In in Hin as [Hin Hk]. simpl in Hk.
  split; [by apply list_elem_of_In | by apply String.eqb_eq].
Qed.

Lemma last_value_None (row_dict : series) (k : string) :
  last_value lower k row_dict = None →
  ∀ label v, (label, v) ∈ row_dict → lower label ≠ k.
Proof.
  unfold last_value. intros Hlast label v Hin Hk.
  destruct (last _) eqn:Hl; [done|]. apply last_None in Hl.
  assert (In (label, v) (List.filter (λ kv, String.eqb (lower kv.1) k) row_dict)) as Hf.
  { apply filter_In. split; [by apply list_elem_of_In|]. by apply String.eqb_eq. }
  rewrite Hl in Hf. destruct Hf.
Qed.

Lemma has_column_dict (row : series) (k : string) :
  (∃ label v, (label, v) ∈ to_dict (dropna row) ∧ lower label = k)
  ↔ has_column lower row k.
Proof.
  unfold has_column. split.
  - intros (label & v & Hin & Hk). exists label, v.
    apply elem_of_to_dict, elem_of_dropna in Hin as [? ?]. done.
  - intros (label & v & Hin & Hv & Hk).
    assert (label ∈ map fst (to_dict (dropna row))) as Hkey.
    { apply to_dict_keys. apply list_elem_of_In, in_map_iff.
      exists (label, v). split; [done|].
      apply list_elem_of_In, elem_of_dropna. done. }
    apply list_elem_of_In, in_map_iff in Hkey as ([label' v'] & Heq & Hin').
    simpl in Heq. subst label'. exists label, v'.
    split; [by apply list_elem_of_In | done].
Qed.

Lemma user_kwargs_has (row : series) (k : string) :
  k ∈ valid_keys →
  is_Some (user_kwargs_of lower (to_dict (dropna row)) !! k)
  ↔ has_column lower row k.
Proof.
  intros Hk. rewrite user_kwargs_lookup, bool_decide_true by done.
  rewrite <- has_column_dict. split.
  - intros [v Hv]. apply last_value_Some in Hv as (label & ? & ?). eauto.
  - intros (label & v & Hin & Hl).
    destruct (last_value lower k _) eqn:Hlast; [by eexists|].
    by destruct (last_value_None _ _ Hlast label v Hin).
Qed.

(** X4. Every entry of [user_kwargs] has one of the thirteen valid keys,
    and its value is a cell of the row that is not missing, found under a
    label whose lowered form is that key. *)
Theorem user_kwargs_hold_valid_keys_and_present_cells
    (row : series) (k : string) (v : cell) :
  user_kwargs_of lower (to_dict (dropna row)) !! k = Some v →
  k ∈ valid_keys ∧ v ≠ NaN ∧ ∃ label, (label, v) ∈ row ∧ lower label = k.
Proof.
  rewrite user_kwargs_lookup. case_bool_decide as Hk; [|done].
  intros (label & Hin & Hl)%last_value_Some.
  apply elem_of_to_dict, elem_of_dropna in Hin as [Hin Hv].
  split; [done|]. split; [done|]. by exists label.
Qed.

Lemma unexpected_keyword_names (k : string) : substring k (unexpected_keyword k).
Proof.
  by exists "UserItem.__init__() got an unexpected keyword argument '", "'".
Qed.

Lemma import_user_row_run (row : series) (s : σ) :
  import_user_row lower row s
  = match user_kwargs_of lower (to_dict (dropna row)) !! "name",
          user_kwargs_of lower (to_dict (dropna row)) !! "site_role" with
    | Some _, Some _ =>
        (Got tt, s,
         [Say st_warning "Could not add user {}: {}"
            [series_get row "name" (Str "unknown");
             Str (unexpected_keyword "full_name")]])
    | _, _ =>
        (Got tt, s,
         [Say st_warning "Skipping row because 'name' or 'site_role' missing" []])
    end.
Proof.
  unfold import_user_row, try_except.
  set (user_kwargs := user_kwargs_of lower (to_dict (dropna row))).
  by destruct (user_kwargs !! "name"), (user_kwargs !! "site_role").
Qed.

(** X5. No row of the minimal import reaches [users.add]. A row that has
    a cell that is not missing under a label that lowers to name and one
    under a label that lowers to site_role gets as far as the constructor
    of the user item, which raises on the keyword [full_name]: the row
    ends in the warning that the user could not be added, with the cell
    under the label name itself (or unknown) and a text that names
    [full_name]. Any other row is skipped with a warning. Either way the
    row makes no call and the world is not touched. *)
Theorem import_user_row_stops_at_constructor (row : series) (s : σ) :
  (has_column lower row "name" ∧ has_column lower row "site_role" →
   ∃ text,
     substring "full_name" text
     ∧ import_user_row lower row s
       = (Got tt, s,
          [Say st_warning "Could not add user {}: {}"
             [match List.find (λ kv, String.eqb kv.1 "name") row with
              | Some (_, v) => v
              | None => Str "unknown"
              end;
              Str text]]))
  ∧ (¬ (has_column lower row "name" ∧ has_column lower row "site_role") →
     import_user_row lower row s
     = (Got tt, s,
        [Say st_warning "Skipping row because 'name' or 'site_role' missing" []]))
  ∧ (∀ c, Call c ∉ actions (import_user_row lower row s))
  ∧ final_state (import_user_row lower row s) = s.
Proof.
  assert ("name" ∈ valid_keys) as Hn by apply list_elem_of_here.
  assert ("site_role" ∈ valid_keys) as Hr
    by apply list_elem_of_further, list_elem_of_here.
  pose proof (user_kwargs_has row "name" Hn) as Hname.
  pose proof (user_kwargs_has row "site_role" Hr) as Hrole.
  rewrite import_user_row_run. split; [|split; [|split]].
  - intros [[v1 H1]%Hname [v2 H2]%Hrole]. rewrite H1, H2.
    exists (unexpected_keyword "full_name").
    split; [apply unexpected_keyword_names|].
    unfold series_get, series_lookup.
    by destruct (List.find _ row) as [[? ?]|].
  - intros Hnot.
    destruct (user_kwargs_of lower (to_dict (dropna row)) !! "name")
      as [v1|] eqn:H1; [|done].
    destruct (user_kwargs_of lower (to_dict (dropna row)) !! "site_role")
      as [v2|] eqn:H2; [|done].
    destruct Hnot. split; [apply Hname | apply Hrole]; by eexists.
  - intros c.
    destruct (user_kwargs_of lower (to_dict (dropna row)) !! "name");
      [destruct (user_kwargs_of lower (to_dict (dropna row)) !! "site_role")|];
      unfold actions; simpl; by intros [=]%list_elem_of_singleton.
  - by destruct (user_kwargs_of lower (to_dict (dropna row)) !! "name");
      [destruct (user_kwargs_of lower (to_dict (dropna row)) !! "site_role")|].
Qed.

Lemma dropna_keys (row : series) (k : string) :
  k ∈ map fst (dropna row) → k ∈ map fst row.
Proof.
  intros ([k' v] & Heq & Hin)%list_elem_of_In%in_map_iff.
  apply list_elem_of_In, elem_of_dropna in Hin as [Hin _].
  apply list_elem_of_In, in_map_iff. exists (k', v).
  split; [done | by apply list_elem_of_In].
Qed.

Lemma NoDup_dropna (row : series) :
  NoDup (map fst row) → NoDup (map fst (dropna row)).
Proof.
  induction row as [|[k v] row IH]; simpl; [done|].
  intros [Hk Hnd]%NoDup_cons. destruct (notna v); simpl; [|by apply IH].
  apply NoDup_cons. split; [|by apply IH].
  intros Hin. by apply Hk, dropna_keys.
Qed.

Lemma dropna_app (pre post : series) :
  dropna (pre ++ post) = dropna pre ++ dropna post.
Proof. apply List.filter_app. Qed.

(** X6. When the labels of a row are distinct and several of them lower
    to the same valid key, the value kept under that key is the one of the
    last such column that is not missing. *)
Theorem later_column_wins (pre post : series) (label k : string) (v : cell) :
  NoDup (map fst (pre ++ (label, v) :: post)) →
  v ≠ NaN →
  lower label = k →
  k ∈ valid_keys →
  (∀ label' v', (label', v') ∈ post → v' ≠ NaN → lower label' ≠ k) →
  user_kwargs_of lower (to_dict (dropna (pre ++ (label, v) :: post))) !! k = Some v.
Proof.
  intros Hnd Hv Hk Hvalid Hpost.
  rewrite (to_dict_NoDup _ (NoDup_dropna _ Hnd)), user_kwargs_lookup.
  rewrite bool_decide_true by done. unfold last_value.
  rewrite dropna_app. simpl. apply notna_spec in Hv. rewrite Hv.
  rewrite List.filter_app. simpl.
  destruct (String.eqb_spec (lower label) k) as [_|Hne]; [|done].
  replace (List.filter (λ kv, String.eqb (lower kv.1) k) (dropna post)) with (@nil (string * cell)).
  { by rewrite last_snoc. }
  symmetry. generalize (dropna post) (λ l' v', proj1 (elem_of_dropna post l' v')).
  intros d Hd. induction d as [|[l' v'] d IH]; [done|]. simpl.
  destruct (String.eqb_spec (lower l') k) as [Heq|_].
  - destruct (Hd l' v') as [Hin Hv']; [by left|]. by destruct (Hpost l' v' Hin Hv').
  - apply IH. intros l2 v2 Hin. apply Hd. by right.
Qed.

Lemma first_group_name_Some (vals : list cell) (g : string) :
  first_group_name strip vals = Some g →
  g ≠ EmptyString
  ∧ ∃ pre val post, vals = pre ++ Str val :: post ∧ g = strip val
                    ∧ Forall (no_group_name strip) pre.
Proof.
  induction vals as [|c vals IH]; [done|]. simpl.
  destruct c as [val| |z].
  - destruct (String.eqb_spec (strip val) EmptyString) as [Hblank|Hname].
    + intros (Hg & pre & val' & post & -> & -> & Hpre)%IH. split; [done|].
      exists (Str val :: pre), val', post. split; [done|]. split; [done|].
      constructor; [|done]. by intros ? [= <-].
    + intros [= <-]. split; [done|]. exists [], val, vals. by repeat split.
  - intros (Hg & pre & val' & post & -> & -> & Hpre)%IH. split; [done|].
    exists (NaN :: pre), val', post. split; [done|]. split; [done|].
    constructor; [|done]. by intros ? [=].
  - intros (Hg & pre & val' & post & -> & -> & Hpre)%IH. split; [done|].
    exists (Num z :: pre), val', post. split; [done|]. split; [done|].
    constructor; [|done]. by intros ? [=].
Qed.

Lemma first_group_name_first (pre post : list cell) (val : string) :
  Forall (no_group_name strip) pre →
  strip val ≠ EmptyString →
  first_group_name strip (pre ++ Str val :: post) = Some (strip val).
Proof.
  intros Hpre Hval. induction Hpre as [|c pre Hc _ IH]; simpl.
  - by destruct (String.eqb_spec (strip val) EmptyString).
  - destruct c as [v| |z]; try done.
    rewrite (Hc v eq_refl). simpl. done.
Qed.

Lemma first_group_name_None (vals : list cell) :
  Forall (no_group_name strip) vals → first_group_name strip vals = None.
Proof.
  induction 1 as [|c vals Hc _ IH]; [done|]. simpl.
  destruct c as [v| |z]; try done. by rewrite (Hc v eq_refl).
Qed.

Lemma import_group_row_run (row : series) (s : σ) :
  import_group_row strip row s
  = match first_group_name strip (map snd (to_dict (dropna row))) with
    | Some name =>
        match groups_create name s with
        | (Got _, s') => (Got tt, s', [Call (GroupsCreate name)])
        | (Fault e, s') =>
            (Got tt, s',
             [Call (GroupsCreate name);
              Say st_warning "Could not create group {}: {}"
                [Str name; Str (str_e e)]])
        end
    | None => (Got tt, s, [Say st_warning "Skipping row with no valid group name" []])
    end.
Proof.
  unfold import_group_row, try_except.
  destruct (first_group_name strip _) as [name|] eqn:Hname; [|done].
  apply first_group_name_Some in Hname as [Hne _].
  destruct (String.eqb_spec name EmptyString) as [?|_]; [done|].
  unfold call. simpl. by destruct (groups_create name s) as [[[]|e] s'].
Qed.

(** X7. The group handed to [groups.create] for a row is never the empty
    name: it is the text of a cell of the row after [strip()]. For distinct
    labels it is the first cell in column order that is text with something
    left after [strip()]; cells that are missing, numbers or blank text
    are passed over, and a row that has nothing else is skipped with a
    warning, the world untouched. *)
Theorem group_name_is_first_non_blank_text (row : series) (s : σ) :
  (∀ name, Call (GroupsCreate name) ∈ actions (import_group_row strip row s) →
     name ≠ EmptyString ∧ ∃ label val, (label, Str val) ∈ row ∧ name = strip val)
  ∧ (∀ pre post label val,
       row = pre ++ (label, Str val) :: post →
       NoDup (map fst row) →
       Forall (no_group_name strip) (map snd pre) →
       strip val ≠ EmptyString →
       Call (GroupsCreate (strip val)) ∈ actions (import_group_row strip row s))
  ∧ (Forall (no_group_name strip) (map snd row) →
     import_group_row strip row s
     = (Got tt, s, [Say st_warning "Skipping row with no valid group name" []])).
Proof.
  rewrite import_group_row_run. split; [|split].
  - intros name Hcall.
    destruct (first_group_name strip _) as [g|] eqn:Hg.
    + assert (name = g) as ->.
      { destruct (groups_create g s) as [[[]|e] s']; unfold actions in Hcall; simpl in Hcall.
        - apply list_elem_of_singleton in Hcall. congruence.
        - apply elem_of_cons in Hcall as [[= ->]|Hcall]; [done|].
          by apply list_elem_of_singleton in Hcall. }
      apply first_group_name_Some in Hg as (Hne & pre & val & post & Hvals & -> & _).
      split; [done|].
      assert (In (Str val) (map snd (to_dict (dropna row)))) as Hin
        by (rewrite Hvals; apply in_or_app; right; by left).
      apply in_map_iff in Hin as ([label c] & Hc & Hin). simpl in Hc. subst c.
      apply list_elem_of_In, elem_of_to_dict, elem_of_dropna in Hin as [Hin _].
      by exists label, val.
    + unfold actions in Hcall. simpl in Hcall.
      by apply list_elem_of_singleton in Hcall.
  - intros pre post label val -> Hnd Hpre Hval.
    rewrite (to_dict_NoDup _ (NoDup_dropna _ Hnd)), dropna_app, map_app. simpl.
    assert (first_group_name strip (map snd (dropna pre) ++ Str val :: map snd (dropna post))
            = Some (strip val)) as ->.
    { apply first_group_name_first; [|done].
      clear -Hpre. induction pre as [|[l c] pre IH]; simpl; [constructor|].
      apply Forall_cons in Hpre as [Hc Hpre].
      destruct (notna c); simpl; [constructor|]; auto. }
    destruct (groups_create (strip val) s) as [[[]|e] s'];
      unfold actions; simpl; apply list_elem_of_here.
  - intros Hall.
    rewrite first_group_name_None; [done|].
    assert (∀ c, c ∈ map snd (to_dict (dropna row)) → c ∈ map snd row) as Hsub.
    { intros c ([label c'] & Hc & Hin)%list_elem_of_In%in_map_iff. simpl in Hc. subst c'.
      apply list_elem_of_In, elem_of_to_dict, elem_of_dropna in Hin as [Hin _].
      apply list_elem_of_In, in_map_iff. exists (label, c).
      split; [done | by apply list_elem_of_In]. }
    apply Forall_forall. intros c Hc. by apply (proj1 (Forall_forall _ _) Hall), Hsub.
Qed.

Lemma answered_app (is_call : action → bool) (l1 l2 : list action) :
  answered is_call (l1 ++ l2) = answered is_call l1 + answered is_call l2.
Proof. unfold answered. rewrite !List.filter_app, !length_app. lia. Qed.

Lemma answered_concat {A} (is_call : action → bool) (xs : list A)
    (ls : list (list action)) :
  Forall2 (λ _ l, answered is_call l = 1) xs ls →
  answered is_call (concat ls) = length xs.
Proof.
  induction 1 as [|x l xs ls Hl _ IH]; [done|].
  simpl. rewrite answered_app, Hl, IH. done.
Qed.

Lemma import_user_row_warns (row : series) (s : σ) :
  ∃ msg args, import_user_row lower row s = (Got tt, s, [Say st_warning msg args]).
Proof.
  rewrite import_user_row_run.
  destruct (user_kwargs_of lower (to_dict (dropna row)) !! "name");
    [destruct (user_kwargs_of lower (to_dict (dropna row)) !! "site_role")|];
    by eexists _, _.
Qed.

Lemma import_group_row_once (row : series) (s : σ) :
  ∃ s' l, import_group_row strip row s = (Got tt, s', l)
          ∧ answered is_groups_create l = 1.
Proof.
  rewrite import_group_row_run.
  destruct (first_group_name strip _) as [name|]; [|by eexists _, _].
  destruct (groups_create name s) as [[[]|e] s']; by eexists _, _.
Qed.

(** X8. The two import loops of the minimal app never raise. The loop
    over users leaves the world as it found it and makes no call at all,
    so no user is ever added: its actions are exactly one warning per row,
    in the order of the rows (the row is skipped, or the user could not be
    added). The loop over groups answers every row exactly once, with a
    [groups.create] call or with a skip, whatever the server replies. *)
Theorem import_loops_answer_every_row (df : list series) (s : σ) :
  (∃ l, for_each (import_user_row lower) df s = (Got tt, s, l)
        ∧ Forall2 (λ row a,
                     a = Say st_warning
                           "Skipping row because 'name' or 'site_role' missing" []
                     ∨ ∃ text,
                         a = Say st_warning "Could not add user {}: {}"
                               [series_get row "name" (Str "unknown"); Str text])
            df l
        ∧ List.filter is_users_add l = [])
  ∧ (returned (for_each (import_group_row strip) df s) = Got tt
     ∧ answered is_groups_create (actions (for_each (import_group_row strip) df s))
       = length df).
Proof.
  split.
  - revert s. induction df as [|row df IH]; intros s.
    + exists []. by repeat split.
    + destruct (IH s) as (l & Hrun & Hl & Hno).
      simpl. rewrite bind_run, import_user_row_run.
      destruct (user_kwargs_of lower (to_dict (dropna row)) !! "name");
        [destruct (user_kwargs_of lower (to_dict (dropna row)) !! "site_role")|];
        rewrite Hrun; eexists; (split; [reflexivity|]);
        (split; [constructor; [|done]; eauto | done]).
  - destruct (for_each_safe (import_group_row strip)
                (λ _ l, answered is_groups_create l = 1) df s) as (s' & ls & -> & Hls).
    { intros row s0. apply import_group_row_once. }
    split; [done|]. by apply answered_concat.
Qed.

Lemma import_loop_run (import_type : import_kind) (df : list series) (s : σ) :
  ∃ s' l,
    (match import_type with
     | Users =>
         for_each (import_user_row lower) df;;
         say st_success "All users imported!" []
     | Groups =>
         for_each (import_group_row strip) df;;
         say st_success "All groups imported!" []
     end) s
    = (Got tt, s',
       l ++ [Say st_success
               match import_type with
               | Users => "All users imported!"
               | Groups => "All groups imported!"
               end []]).
Proof.
  destruct import_type.
  - destruct (for_each_safe (import_user_row lower)
                (λ _ l, ∃ msg args, l = [Say st_warning msg args]) df s)
      as (s' & ls & Hrun & _).
    { intros row s0. destruct (import_user_row_warns row s0) as (msg & args & ->).
      eexists _, _. split; [reflexivity|]. by eexists _, _. }
    exists s', (concat ls). by rewrite bind_run, Hrun.
  - destruct (for_each_safe (import_group_row strip)
                (λ _ l, answered is_groups_create l = 1) df s) as (s' & ls & Hrun & _).
    { intros row s0. apply import_group_row_once. }
    exists s', (concat ls). by rewrite bind_run, Hrun.
Qed.

Lemma run_import_readable (import_type : import_kind) (df : list series)
    (a : auth) (s s1 : σ) :
  sign_in a s = (Got tt, s1) →
  ∃ s' l tail,
    run_import lower strip import_type (Some (Got df)) a s
    = (Got tt, s',
       [Call SignIn; Say st_success "Connected to Tableau" []; DataPreview]
       ++ l
       ++ [Say st_success
             match import_type with
             | Users => "All users imported!"
             | Groups => "All groups imported!"
             end [];
           Call SignOut]
       ++ tail).
Proof.
  intros Hin. unfold run_import, try_except, connect_to_tableau.
  rewrite bind_run. unfold call at 1. rewrite Hin.
  cbv beta iota. rewrite bind_run. unfold say at 1, act at 1.
  cbv beta iota. rewrite bind_run. unfold lift at 1.
  cbv beta iota. rewrite bind_run. unfold act at 1.
  cbv beta iota. rewrite bind_run.
  destruct (import_loop_run import_type df s1) as (s2 & l & ->).
  rewrite bind_run. unfold call. destruct (sign_out s2) as [[[]|e] s3]; simpl.
  - exists s3, l, [Say st_info "Signed out successfully." []].
    by rewrite <- !app_assoc.
  - exists s3, l, [Say st_error "Import failed: {}" [Str (str_e e)]].
    by rewrite <- !app_assoc.
Qed.

(** X9. [run_import] signs in before it reads the file. Once signed in,
    a readable file always leads to the closing message that all rows are
    imported and to the sign-out, whatever happened to the single rows; an
    unreadable file ends the run with the message that the import failed
    and without sign-out. The run itself never raises. *)
Theorem run_import_signs_out_whatever_the_rows
    (import_type : import_kind) (a : auth) (s s1 : σ) :
  sign_in a s = (Got tt, s1) →
  (∀ df,
     returned (run_import lower strip import_type (Some (Got df)) a s) = Got tt
     ∧ Call SignOut ∈ actions (run_import lower strip import_type (Some (Got df)) a s)
     ∧ Say st_success
         match import_type with
         | Users => "All users imported!"
         | Groups => "All groups imported!"
         end []
       ∈ actions (run_import lower strip import_type (Some (Got df)) a s))
  ∧ (∀ e,
       run_import lower strip import_type (Some (Fault e)) a s
       = (Got tt, s1,
          [Call SignIn; Say st_success "Connected to Tableau" [];
           Say st_error "Import failed: {}" [Str (str_e e)]])).
Proof.
  intros Hin. split.
  - intros df.
    destruct (run_import_readable import_type df a s s1 Hin) as (s' & l & tail & ->).
    unfold returned, actions. simpl. split; [done|].
    split; do 3 apply list_elem_of_further; apply elem_of_app; right.
    + apply list_elem_of_further, list_elem_of_here.
    + apply list_elem_of_here.
  - intros e. unfold run_import, try_except, connect_to_tableau.
    rewrite bind_run. unfold call at 1. rewrite Hin. reflexivity.
Qed.
End MinimalImports.

(** ** Imports of the styled app *)

Section StyledImports.
Context {σ : Type} {site : Tableau σ}.
Context (lower strip : string → string) (str_num : Z → string).

Lemma main_import_group_row_run (row : series) (group_name : option cell) (s : σ) :
  main_import_group_row str_num row group_name s
  = match row with
    | [] =>
        (Got group_name, s,
         [Say st_warning "Could not create group {}: {}"
            [default (Str "unknown") group_name;
             Str "single positional indexer is out-of-bounds"]])
    | (_, first) :: _ =>
        if notna first then
          match groups_create (str_cell str_num first) s with
          | (Got _, s') =>
              (Got (Some first), s', [Call (GroupsCreate (str_cell str_num first))])
          | (Fault e, s') =>
              (Got (Some first), s',
               [Call (GroupsCreate (str_cell str_num first));
                Say st_warning "Could not create group {}: {}" [first; Str (str_e e)]])
          end
        else (Got (Some first), s, [])
    end.
Proof.
  destruct row as [|[label first] rest]; [done|].
  unfold main_import_group_row, try_except. rewrite bind_run.
  destruct (notna first); [|done].
  unfold call. by destruct (groups_create _ s) as [[[]|e] s'].
Qed.

(** X10. On a row with distinct labels whose first cell is text that
    [strip()] leaves unchanged and that is not empty, the group import of
    the minimal app and the one inlined in the styled app do the same:
    the same [groups.create] call, the same warning if it fails, the same
    world afterwards. *)
Theorem group_imports_agree_on_clean_first_column
    (label val : string) (rest : series) (group_name : option cell) (s : σ) :
  NoDup (map fst ((label, Str val) :: rest)) →
  strip val = val →
  val ≠ EmptyString →
  ∃ s' l,
    import_group_row strip ((label, Str val) :: rest) s = (Got tt, s', l)
    ∧ main_import_group_row str_num ((label, Str val) :: rest) group_name s
      = (Got (Some (Str val)), s', l)
    ∧ Call (GroupsCreate val) ∈ l.
Proof.
  intros Hnd Hstrip Hval.
  rewrite import_group_row_run, main_import_group_row_run.
  rewrite (to_dict_NoDup _ (NoDup_dropna _ Hnd)). simpl.
  rewrite Hstrip. destruct (String.eqb_spec val EmptyString) as [?|_]; [done|].
  destruct (groups_create val s) as [[[]|e] s'];
    eexists _, _; (split; [reflexivity|]); (split; [reflexivity|]);
    apply list_elem_of_here.
Qed.

Lemma main_import_groups_run (df : list series) (group_name : option cell) (s : σ) :
  ∃ s' l, main_import_groups str_num df group_name s = (Got tt, s', l)
          ∧ length (List.filter is_groups_create l)
            = length (List.filter first_cell_present df).
Proof.
  revert group_name s. induction df as [|row df IH]; intros group_name s.
  - by exists s, [].
  - simpl. rewrite bind_run, main_import_group_row_run.
    destruct row as [|[label first] rest].
    + destruct (IH group_name s) as (s' & l & -> & Hl).
      eexists _, _. split; [reflexivity|]. simpl. done.
    + simpl. destruct (notna first).
      * destruct (groups_create _ s) as [[[]|e] s1];
          destruct (IH (Some first) s1) as (s' & l & -> & Hl);
          eexists _, _; (split; [reflexivity|]); simpl; by rewrite Hl.
      * destruct (IH (Some first) s) as (s' & l & -> & Hl).
        eexists _, _. split; [reflexivity|]. done.
Qed.

Lemma main_import_user_row_run (row : series) (s : σ) :
  main_import_user_row row s
  = (Got tt, s,
     [Say st_warning "Could not add user {}: {}"
        [series_get row "name" (Str "unknown");
         Str (unexpected_keyword "full_name")]]).
Proof. reflexivity. Qed.

(** X11. The import loops of the styled app never raise. The loop over
    users never reaches [users.add]: every row, whatever it holds, stops at
    the constructor of the user item, which raises on the keyword
    [full_name]; the loop leaves the world as it found it and its actions
    are one warning per row, in the order of the rows, each with the cell
    under the label name (or unknown) and the same text, which names
    [full_name]. The loop over groups never skips with a message: it calls
    [groups.create] once for every row whose first cell is not missing,
    whatever the server replies. *)
Theorem styled_import_loops_never_raise (df : list series) (s : σ) :
  (∃ text,
     substring "full_name" text
     ∧ for_each main_import_user_row df s
       = (Got tt, s,
          map (λ row,
                 Say st_warning "Could not add user {}: {}"
                   [match List.find (λ kv, String.eqb kv.1 "name") row with
                    | Some (_, v) => v
                    | None => Str "unknown"
                    end;
                    Str text])
            df))
  ∧ (returned (main_import_groups str_num df None s) = Got tt
     ∧ length (List.filter is_groups_create
                 (actions (main_import_groups str_num df None s)))
       = length (List.filter first_cell_present df)).
Proof.
  split.
  - exists (unexpected_keyword "full_name").
    split; [apply unexpected_keyword_names|].
    induction df as [|row df IH]; [done|].
    simpl. rewrite bind_run, main_import_user_row_run, IH. simpl.
    do 3 f_equal. unfold series_get, series_lookup.
    by destruct (List.find _ row) as [[? ?]|].
  - destruct (main_import_groups_run df None s) as (s' & l & -> & Hl). done.
Qed.
End StyledImports.

(** ** Workbook downloads of the styled app *)

Section StyledDownloads.
Context {σ : Type} {site : Tableau σ}.
Context (lower : string → string) (selectbox : list string → string).

Lemma fetch_and_offer_run (wb : workbook_item) (file_name : string) (s : σ) :
  fetch_and_offer wb file_name s
  = match workbooks_download (w_id wb) s with
    | (Fault e, s1) => (Fault e, s1, [Call (WorkbooksDownload (w_id wb))])
    | (Got workbook_path, s1) =>
        match read_file workbook_path s1 with
        | (Fault e, s2) =>
            (Fault e, s2,
             [Call (WorkbooksDownload (w_id wb)); Call (ReadFile workbook_path)])
        | (Got workbook_data, s2) =>
            match os_remove workbook_path s2 with
            | (r, s3) =>
                (r, s3,
                 [Call (WorkbooksDownload (w_id wb)); Call (ReadFile workbook_path);
                  Offer workbook_data file_name "application/octet-stream";
                  Call (RemoveFile workbook_path)])
            end
        end
    end.
Proof.
  unfold fetch_and_offer. rewrite bind_run. unfold call at 1.
  destruct (workbooks_download (w_id wb) s) as [[path|e] s1]; [|done].
  cbv beta iota. rewrite bind_run. unfold call at 1.
  destruct (read_file path s1) as [[data|e] s2]; [|done].
  cbv beta iota. rewrite bind_run. unfold act at 1.
  cbv beta iota. unfold call.
  by destruct (os_remove path s2) as [r s3].
Qed.

(** What one iteration of a download loop leaves: one request for the
    workbook, at most one offer, under the name of the workbook. *)
Lemma download_iteration (wb : workbook_item) (s : σ) :
  ∃ s' l,
    try_except
      (fetch_and_offer wb (w_name wb +:+ ".twbx"))
      (λ e, say st_error "Failed to download '{}': {}"
              [Str (w_name wb); Str (str_e e)]) s
    = (Got tt, s', l)
    ∧ download_calls l = [w_id wb]
    ∧ (offered_files l = [] ∨ offered_files l = [w_name wb +:+ ".twbx"])
    ∧ (Call SignOut ∉ l)
    ∧ ((∃ e s1, workbooks_download (w_id wb) s = (Fault e, s1)) → offered_files l = []).
Proof.
  unfold try_except. rewrite fetch_and_offer_run.
  destruct (workbooks_download (w_id wb) s) as [[path|e] s1].
  - destruct (read_file path s1) as [[data|e] s2].
    + destruct (os_remove path s2) as [[[]|e] s3]; eexists _, _;
        (split; [reflexivity|]); (split; [done|]); (split; [by right|]);
        (split; [no_such_action | by intros (? & ? & [=])]).
    + eexists _, _. split; [reflexivity|]. split; [done|]. split; [by left|].
      split; [no_such_action | done].
  - eexists _, _. split; [reflexivity|]. split; [done|]. split; [by left|].
    split; [no_such_action | done].
Qed.

Lemma download_calls_app (l1 l2 : list action) :
  download_calls (l1 ++ l2) = download_calls l1 ++ download_calls l2.
Proof. apply omap_app. Qed.

Lemma download_loop (wbs : list workbook_item) (s : σ) :
  ∃ s' l,
    for_each
      (λ wb, try_except
               (fetch_and_offer wb (w_name wb +:+ ".twbx"))
               (λ e, say st_error "Failed to download '{}': {}"
                       [Str (w_name wb); Str (str_e e)])) wbs s
    = (Got tt, s', l)
    ∧ download_calls l = map w_id wbs
    ∧ (∀ f, f ∈ offered_files l → ∃ wb, wb ∈ wbs ∧ f = w_name wb +:+ ".twbx")
    ∧ (Call SignOut ∉ l)
    ∧ ((∀ id s0, ∃ e s1, workbooks_download id s0 = (Fault e, s1)) →
       offered_files l = []).
Proof.
  revert s. induction wbs as [|wb wbs IH]; intros s.
  - exists s, []. split; [done|]. split; [done|].
    split; [by intros f []%elem_of_nil|]. split; [apply not_elem_of_nil | done].
  - destruct (download_iteration wb s) as (s1 & l1 & Hrun1 & Hcalls1 & Hoff1 & Hno1 & Hfail1).
    destruct (IH s1) as (s' & l2 & Hrun2 & Hcalls2 & Hoff2 & Hno2 & Hfail2).
    exists s', (l1 ++ l2). split; [simpl; by rewrite bind_run, Hrun1, Hrun2|].
    split; [by rewrite download_calls_app, Hcalls1, Hcalls2|].
    split; [|split].
    + intros f. rewrite offered_files_app. intros [Hf|Hf]%elem_of_app.
      * exists wb. split; [by left|].
        destruct Hoff1 as [Hoff1|Hoff1]; rewrite Hoff1 in Hf;
          [by apply elem_of_nil in Hf | by apply list_elem_of_singleton in Hf].
      * destruct (Hoff2 f Hf) as (wb' & Hin & ->). exists wb'. split; [by right | done].
    + intros [?|?]%elem_of_app; [by apply Hno1 | by apply Hno2].
    + intros Hall. rewrite offered_files_app, (Hfail2 Hall), Hfail1; [done|].
      apply Hall.
Qed.

Lemma elem_of_in_project (project_name : string) (workbooks : list workbook_item)
    (wb : workbook_item) :
  wb ∈ List.filter (in_project project_name) workbooks
  ↔ wb ∈ workbooks ∧ w_project_name wb = Some project_name.
Proof.
  rewrite !list_elem_of_In, filter_In. unfold in_project.
  by rewrite bool_decide_eq_true.
Qed.

Lemma _download_all_workbooks_run (project_name : string)
    (workbooks : list workbook_item) (s s1 : σ) :
  workbooks_get s = (Got workbooks, s1) →
  ∃ s' l,
    _download_all_workbooks project_name s = (Got tt, s', Call WorkbooksGet :: l)
    ∧ download_calls l = map w_id (List.filter (in_project project_name) workbooks)
    ∧ (∀ f, f ∈ offered_files l →
         ∃ wb, wb ∈ workbooks ∧ w_project_name wb = Some project_name
               ∧ f = w_name wb +:+ ".twbx")
    ∧ (Call SignOut ∉ l)
    ∧ (List.filter (in_project project_name) workbooks ≠ [] →
       last l = Some (Say st_toast "Downloaded {} workbooks!"
                        [Num (Z.of_nat (length (List.filter (in_project project_name)
                                                  workbooks)))]))
    ∧ ((∀ id s0, ∃ e s1, workbooks_download id s0 = (Fault e, s1)) →
       offered_files l = []).
Proof.
  intros Hget. unfold _download_all_workbooks. rewrite bind_run.
  unfold call at 1. rewrite Hget. cbv beta iota.
  pose proof (elem_of_in_project project_name workbooks) as Hproj.
  destruct (List.filter (in_project project_name) workbooks) as [|wb wbs] eqn:Hpws.
  - eexists _, _. split; [reflexivity|]. split; [done|].
    split; [by intros f []%elem_of_nil|]. split; [no_such_action|]. done.
  - rewrite bind_run. unfold say at 1, act at 1. cbv beta iota. rewrite bind_run.
    destruct (download_loop (wb :: wbs) s1) as (s' & l & -> & Hcalls & Hoff & Hno & Hfail).
    eexists _, _. split; [reflexivity|]. simpl.
    split; [by rewrite download_calls_app, app_nil_r, Hcalls|].
    split; [|split; [|split]].
    + intros f. rewrite offered_files_app, app_nil_r.
      intros (wb' & Hin & ->)%Hoff. exists wb'.
      apply Hproj in Hin as [? ?]. done.
    + rewrite not_elem_of_cons. split; [done|].
      intros [?|Hin]%elem_of_app; [done|]. by apply list_elem_of_singleton in Hin.
    + intros _. by rewrite last_cons, last_snoc.
    + intros Hall. by rewrite offered_files_app, app_nil_r, (Hfail Hall).
Qed.

(** X12. Once the listing has returned, [_download_all_workbooks] does not
    raise. It asks the server for every workbook of the chosen project,
    once each and in listing order, whether or not earlier downloads
    failed, and for no other workbook; every file it offers is a workbook
    of that project under its name with the extension twbx. *)
Theorem download_all_tries_every_project_workbook (project_name : string)
    (workbooks : list workbook_item) (s s1 : σ) :
  workbooks_get s = (Got workbooks, s1) →
  returned (_download_all_workbooks project_name s) = Got tt
  ∧ download_calls (actions (_download_all_workbooks project_name s))
    = map w_id (List.filter (in_project project_name) workbooks)
  ∧ (∀ f, f ∈ offered_files (actions (_download_all_workbooks project_name s)) →
       ∃ wb, wb ∈ workbooks ∧ w_project_name wb = Some project_name
             ∧ f = w_name wb +:+ ".twbx").
Proof.
  intros Hget.
  destruct (_download_all_workbooks_run project_name workbooks s s1 Hget)
    as (s' & l & -> & Hcalls & Hoff & _).
  unfold returned, actions. simpl. done.
Qed.

(** X13. The closing toast of [_download_all_workbooks] counts the
    workbooks of the project, not the downloads that worked: when every
    download raises, nothing is offered and the toast still announces all
    of them as downloaded. *)
Theorem download_all_toast_counts_attempts (project_name : string)
    (workbooks : list workbook_item) (s s1 : σ) :
  workbooks_get s = (Got workbooks, s1) →
  List.filter (in_project project_name) workbooks ≠ [] →
  last (actions (_download_all_workbooks project_name s))
  = Some (Say st_toast "Downloaded {} workbooks!"
            [Num (Z.of_nat (length (List.filter (in_project project_name) workbooks)))])
  ∧ ((∀ id s0, ∃ e s1, workbooks_download id s0 = (Fault e, s1)) →
     offered_files (actions (_download_all_workbooks project_name s)) = []).
Proof.
  intros Hget Hne.
  destruct (_download_all_workbooks_run project_name workbooks s s1 Hget)
    as (s' & l & -> & _ & _ & _ & Hlast & Hfail).
  unfold actions. simpl. split; [|done].
  specialize (Hlast Hne). destruct l; [done|]. by rewrite last_cons, Hlast.
Qed.

Lemma next_named_first (selected_workbook : string)
    (project_workbooks : list workbook_item) :
  selected_workbook ∈ map w_name project_workbooks →
  ∃ wb pre post,
    next_named selected_workbook project_workbooks = Got wb
    ∧ project_workbooks = pre ++ wb :: post
    ∧ w_name wb = selected_workbook
    ∧ Forall (λ w, w_name w ≠ selected_workbook) pre.
Proof.
  unfold next_named.
  induction project_workbooks as [|w wbs IH]; simpl; [by intros []%elem_of_nil|].
  destruct (String.eqb_spec (w_name w) selected_workbook) as [Heq|Hne].
  - intros _. by exists w, [], wbs.
  - intros [?|Hin]%elem_of_cons; [done|].
    destruct (IH Hin) as (wb & pre & post & Hfind & -> & Hname & Hpre).
    exists wb, (w :: pre), post. split; [done|]. split; [done|]. split; [done|].
    by constructor.
Qed.

Lemma single_iteration (wb : workbook_item) (selected_workbook : string) (s : σ) :
  ∃ s' l,
    try_except
      (fetch_and_offer wb (selected_workbook +:+ ".twbx");;
       say st_toast "Downloaded '{}' successfully!" [Str selected_workbook])
      (λ e, say st_error "Download failed: {}" [Str (str_e e)]) s
    = (Got tt, s', l)
    ∧ download_calls l = [w_id wb]
    ∧ (Call SignOut ∉ l).
Proof.
  unfold try_except. rewrite bind_run, fetch_and_offer_run.
  destruct (workbooks_download (w_id wb) s) as [[path|e] s1].
  - destruct (read_file path s1) as [[data|e] s2].
    + destruct (os_remove path s2) as [[[]|e] s3]; eexists _, _;
        (split; [reflexivity|]); (split; [done|]); no_such_action.
    + eexists _, _. split; [reflexivity|]. split; [done|]. no_such_action.
  - eexists _, _. split; [reflexivity|]. split; [done|]. no_such_action.
Qed.

Lemma _download_single_workbook_run (project_name : string) (button : bool)
    (workbooks : list workbook_item) (s s1 : σ) :
  (∀ options, options ≠ [] → selectbox options ∈ options) →
  workbooks_get s = (Got workbooks, s1) →
  List.filter (in_project project_name) workbooks ≠ [] →
  ∃ wb pre post s' l,
    List.filter (in_project project_name) workbooks = pre ++ wb :: post
    ∧ w_name wb
      = selectbox (map w_name (List.filter (in_project project_name) workbooks))
    ∧ Forall (λ w, w_name w ≠ w_name wb) pre
    ∧ _download_single_workbook selectbox project_name button s
      = (Got tt, s', Call WorkbooksGet :: l)
    ∧ download_calls l = (if button then [w_id wb] else [])
    ∧ (Call SignOut ∉ l).
Proof.
  intros Hsel Hget Hne. unfold _download_single_workbook.
  rewrite bind_run. unfold call at 1. rewrite Hget. cbv beta iota.
  destruct (List.filter (in_project project_name) workbooks) as [|w wbs] eqn:Hpws; [done|].
  destruct (next_named_first (selectbox (map w_name (w :: wbs))) (w :: wbs))
    as (wb & pre & post & Hnext & Hsplit & Hname & Hpre).
  { by apply Hsel. }
  exists wb, pre, post. rewrite bind_run. unfold lift at 1. rewrite Hnext.
  cbv beta iota. destruct button.
  - destruct (single_iteration wb (selectbox (map w_name (w :: wbs))) s1)
      as (s' & l & -> & Hcalls & Hno).
    exists s', l. rewrite Hname. by repeat split.
  - exists s1, []. rewrite Hname. repeat split; try done. apply not_elem_of_nil.
Qed.

(** X14. With a select box that returns one of its options, and a project
    that has workbooks, [_download_single_workbook] always finds its
    workbook (the search by name cannot come back empty) and does not
    raise: it is the first workbook of the project that bears the chosen
    name, so a later workbook of the same name is never the one
    downloaded. No download is asked before the button is pressed, and
    exactly that workbook when it is. *)
Theorem download_single_takes_first_of_name (project_name : string) (button : bool)
    (workbooks : list workbook_item) (s s1 : σ) :
  (∀ options, options ≠ [] → selectbox options ∈ options) →
  workbooks_get s = (Got workbooks, s1) →
  List.filter (in_project project_name) workbooks ≠ [] →
  ∃ wb pre post,
    List.filter (in_project project_name) workbooks = pre ++ wb :: post
    ∧ w_name wb
      = selectbox (map w_name (List.filter (in_project project_name) workbooks))
    ∧ Forall (λ w, w_name w ≠ w_name wb) pre
    ∧ returned (_download_single_workbook selectbox project_name button s) = Got tt
    ∧ download_calls (actions (_download_single_workbook selectbox project_name button s))
      = (if button then [w_id wb] else []).
Proof.
  intros Hsel Hget Hne.
  destruct (_download_single_workbook_run project_name button workbooks s s1 Hsel Hget Hne)
    as (wb & pre & post & s' & l & Hsplit & Hname & Hpre & -> & Hcalls & _).
  exists wb, pre, post. by repeat split.
Qed.

Lemma _search_and_download_workbooks_run (project_name search_query : string)
    (checkbox : workbook_item → bool) (button : bool)
    (workbooks : list workbook_item) (s s1 : σ) :
  workbooks_get s = (Got workbooks, s1) →
  ∃ s' l,
    _search_and_download_workbooks lower project_name search_query checkbox button s
    = (Got tt, s', Call WorkbooksGet :: l)
    ∧ download_calls l
      = (if button
         then map w_id
                (List.filter checkbox
                   (List.filter
                      (λ w, String.eqb search_query EmptyString
                            || contains (lower search_query) (lower (w_name w)))
                      (List.filter (in_project project_name) workbooks)))
         else [])
    ∧ (Call SignOut ∉ l).
Proof.
  intros Hget. unfold _search_and_download_workbooks.
  rewrite bind_run. unfold call at 1. rewrite Hget. cbv beta iota.
  set (pws := List.filter (in_project project_name) workbooks).
  assert ((if String.eqb search_query EmptyString then pws
           else List.filter (λ w, contains (lower search_query) (lower (w_name w))) pws)
          = List.filter (λ w, String.eqb search_query EmptyString
                              || contains (lower search_query) (lower (w_name w))) pws)
    as ->.
  { destruct (String.eqb search_query EmptyString); simpl; [|done].
    clear. induction pws as [|w pws IH]; simpl; by f_equal. }
  destruct (List.filter (λ w, _ || _) pws) as [|m ms] eqn:Hms.
  - eexists _, _. split; [reflexivity|]. simpl.
    split; [by destruct button | no_such_action].
  - rewrite bind_run. unfold say at 1, act at 1. cbv beta iota.
    destruct (List.filter checkbox (m :: ms)) as [|c cs] eqn:Hsel.
    + eexists _, _. split; [reflexivity|]. simpl.
      split; [by destruct button | no_such_action].
    + destruct button.
      * rewrite bind_run.
        destruct (download_loop (c :: cs) s1) as (s' & l & -> & Hcalls & _ & Hno & _).
        eexists _, _. split; [reflexivity|]. simpl.
        split; [by rewrite download_calls_app, app_nil_r, Hcalls|].
        rewrite not_elem_of_cons. split; [done|].
        intros [?|Hin]%elem_of_app; [done|]. by apply list_elem_of_singleton in Hin.
      * eexists _, _. split; [reflexivity|]. simpl. split; [done | no_such_action].
Qed.

(** X15. Once the listing has returned, [_search_and_download_workbooks]
    does not raise, and the workbooks it asks the server for are exactly
    the ticked workbooks of the chosen project whose
    lowered name holds the lowered query as a substring (every workbook of
    the project when the query is empty); none is asked for before the
    button is pressed. *)
Theorem search_downloads_the_ticked_matches (project_name search_query : string)
    (checkbox : workbook_item → bool) (button : bool)
    (workbooks : list workbook_item) (s s1 : σ) :
  workbooks_get s = (Got workbooks, s1) →
  returned (_search_and_download_workbooks lower project_name search_query
              checkbox button s) = Got tt
  ∧ (∀ id,
       id ∈ download_calls
              (actions (_search_and_download_workbooks lower project_name search_query
                          checkbox button s))
       ↔ button = true
         ∧ ∃ wb, wb ∈ workbooks ∧ w_id wb = id ∧ checkbox wb = true
                 ∧ matches_search lower project_name search_query wb).
Proof.
  intros Hget.
  destruct (_search_and_download_workbooks_run project_name search_query checkbox
              button workbooks s s1 Hget) as (s' & l & -> & Hcalls & _).
  unfold returned, actions. simpl. split; [done|]. intros id. rewrite Hcalls.
  destruct button; [|split; [by intros []%elem_of_nil | by intros [[=] _]]].
  rewrite list_elem_of_In, in_map_iff.
  split.
  - intros (wb & Hid & Hin). split; [done|]. exists wb.
    apply filter_In in Hin as [Hin Htick].
    apply filter_In in Hin as [Hin Hmatch].
    apply list_elem_of_In, elem_of_in_project in Hin as [Hin Hproj].
    repeat split; try done.
    apply orb_true_iff in Hmatch as [Hq|Hq].
    + left. by apply String.eqb_eq.
    + right. by apply contains_spec.
  - intros (_ & wb & Hin & Hid & Htick & Hproj & Hq). exists wb. split; [done|].
    apply filter_In. split; [|done]. apply filter_In. split.
    + apply list_elem_of_In, elem_of_in_project. done.
    + apply orb_true_iff. destruct Hq as [->|Hq]; [by left|].
      right. by apply contains_spec.
Qed.

Lemma helpers_return (option : download_option) (project_name search_query : string)
    (checkbox : workbook_item → bool) (button : bool)
    (workbooks : list workbook_item) (s s1 : σ) :
  (∀ options, options ≠ [] → selectbox options ∈ options) →
  workbooks_get s = (Got workbooks, s1) →
  ∃ s' l,
    match option with
    | AllFromProject => _download_all_workbooks project_name
    | SpecificWorkbook => _download_single_workbook selectbox project_name button
    | SearchAndDownload =>
        _search_and_download_workbooks lower project_name search_query checkbox button
    end s = (Got tt, s', l)
    ∧ (Call SignOut ∉ l).
Proof.
  intros Hsel Hget. destruct option.
  - destruct (_download_all_workbooks_run project_name workbooks s s1 Hget)
      as (s' & l & -> & _ & _ & Hno & _).
    eexists _, _. split; [reflexivity|].
    rewrite not_elem_of_cons. by split.
  - destruct (List.filter (in_project project_name) workbooks) as [|w wbs] eqn:Hpws.
    + unfold _download_single_workbook. rewrite bind_run. unfold call at 1.
      rewrite Hget. cbv beta iota. rewrite Hpws.
      eexists _, _. split; [reflexivity|]. no_such_action.
    + destruct (_download_single_workbook_run project_name button workbooks s s1 Hsel Hget)
        as (wb & pre & post & s' & l & _ & _ & _ & -> & _ & Hno).
      { by rewrite Hpws. }
      eexists _, _. split; [reflexivity|].
      rewrite not_elem_of_cons. by split.
  - destruct (_search_and_download_workbooks_run project_name search_query checkbox
                button workbooks s s1 Hget) as (s' & l & -> & _ & Hno).
    eexists _, _. split; [reflexivity|].
    rewrite not_elem_of_cons. by split.
Qed.

Lemma helpers_listing_fault (option : download_option)
    (project_name search_query : string)
    (checkbox : workbook_item → bool) (button : bool) (e : exception) (s s1 : σ) :
  workbooks_get s = (Fault e, s1) →
  match option with
  | AllFromProject => _download_all_workbooks project_name
  | SpecificWorkbook => _download_single_workbook selectbox project_name button
  | SearchAndDownload =>
      _search_and_download_workbooks lower project_name search_query checkbox button
  end s = (Fault e, s1, [Call WorkbooksGet]).
Proof.
  intros Hget. destruct option;
    unfold _download_all_workbooks, _download_single_workbook,
      _search_and_download_workbooks;
    rewrite bind_run; unfold call at 1; by rewrite Hget.
Qed.

Lemma download_workbooks_prefix (a : auth) (option : download_option)
    (search_query : string) (checkbox : workbook_item → bool) (button : bool)
    (p : project_item) (ps : list project_item) (s s1 s2 : σ) :
  sign_in a s = (Got tt, s1) →
  projects_get s1 = (Got (p :: ps), s2) →
  download_workbooks lower selectbox a option search_query checkbox button s
  = match
      (match option with
       | AllFromProject =>
           _download_all_workbooks (selectbox (map p_name (p :: ps)))
       | SpecificWorkbook =>
           _download_single_workbook selectbox (selectbox (map p_name (p :: ps))) button
       | SearchAndDownload =>
           _search_and_download_workbooks lower (selectbox (map p_name (p :: ps)))
             search_query checkbox button
       end) s2
    with
    | (Got _, s3, l) =>
        match sign_out s3 with
        | (Got _, s4) =>
            (Got tt, s4,
             [Call SignIn; Say st_toast "Connection established successfully!" [];
              Call ProjectsGet] ++ l
             ++ [Call SignOut; Say st_toast "Session ended successfully" []])
        | (Fault e, s4) =>
            (Got tt, s4,
             [Call SignIn; Say st_toast "Connection established successfully!" [];
              Call ProjectsGet] ++ l
             ++ [Call SignOut;
                 match e with
                 | ServerResponseError msg =>
                     Say st_error "Tableau Server error: {}" [Str msg]
                 | OtherException msg =>
                     Say st_error "Unexpected error: {}" [Str msg]
                 end])
        end
    | (Fault e, s3, l) =>
        (Got tt, s3,
         [Call SignIn; Say st_toast "Connection established successfully!" [];
          Call ProjectsGet] ++ l
         ++ [match e with
             | ServerResponseError msg =>
                 Say st_error "Tableau Server error: {}" [Str msg]
             | OtherException msg =>
                 Say st_error "Unexpected error: {}" [Str msg]
             end])
    end.
Proof.
  intros Hin Hprojects. unfold download_workbooks, try_except, connect_to_tableau_url.
  rewrite bind_run. unfold call at 1. rewrite Hin.
  cbv beta iota. rewrite bind_run. unfold say at 1, act at 1.
  cbv beta iota. rewrite bind_run. unfold call at 1. rewrite Hprojects.
  cbv beta iota. rewrite bind_run.
  destruct option;
    match goal with
    | |- context [let (_, _) := ?h s2 in _] => destruct (h s2) as [[[[]|e] s3] l]
    end;
    try (destruct e; simpl; done);
    rewrite bind_run; unfold call;
    (destruct (sign_out s3) as [[[]|e] s4]; simpl;
     [|destruct e; simpl]; by rewrite <- ?app_assoc).
Qed.

(** X16. Sessions of [download_workbooks], once signed in and with a
    select box that returns one of its options. A site without projects
    ends the run with an error message and without sign-out. With
    projects, whichever download option is chosen, the sign-out follows
    when the listing of the workbooks returns, whatever the single
    downloads do; when that listing raises there is no sign-out, and the
    last message names a Tableau Server error for a
    [ServerResponseError] and an unexpected error otherwise. The run
    itself does not raise. *)
Theorem download_workbooks_sessions (a : auth) (option : download_option)
    (search_query : string) (checkbox : workbook_item → bool) (button : bool)
    (s s1 : σ) :
  sign_in a s = (Got tt, s1) →
  (∀ options, options ≠ [] → selectbox options ∈ options) →
  (∀ s2, projects_get s1 = (Got [], s2) →
     download_workbooks lower selectbox a option search_query checkbox button s
     = (Got tt, s2,
        [Call SignIn; Say st_toast "Connection established successfully!" [];
         Call ProjectsGet; Say st_error "No projects found on this site!" []]))
  ∧ (∀ p ps workbooks s2 s3,
       projects_get s1 = (Got (p :: ps), s2) →
       workbooks_get s2 = (Got workbooks, s3) →
       returned (download_workbooks lower selectbox a option search_query
                   checkbox button s) = Got tt
       ∧ Call SignOut
         ∈ actions (download_workbooks lower selectbox a option search_query
                      checkbox button s))
  ∧ (∀ p ps e s2 s3,
       projects_get s1 = (Got (p :: ps), s2) →
       workbooks_get s2 = (Fault e, s3) →
       returned (download_workbooks lower selectbox a option search_query
                   checkbox button s) = Got tt
       ∧ (Call SignOut
          ∉ actions (download_workbooks lower selectbox a option search_query
                       checkbox button s))
       ∧ last (actions (download_workbooks lower selectbox a option search_query
                          checkbox button s))
         = Some match e with
                | ServerResponseError msg =>
                    Say st_error "Tableau Server error: {}" [Str msg]
                | OtherException msg =>
                    Say st_error "Unexpected error: {}" [Str msg]
                end).
Proof.
  intros Hin Hsel. split; [|split].
  - intros s2 Hprojects.
    unfold download_workbooks, try_except, connect_to_tableau_url.
    rewrite bind_run. unfold call at 1. rewrite Hin.
    cbv beta iota. rewrite bind_run. unfold say at 1, act at 1.
    cbv beta iota. rewrite bind_run. unfold call at 1. rewrite Hprojects.
    reflexivity.
  - intros p ps workbooks s2 s3 Hprojects Hget.
    rewrite (download_workbooks_prefix a option search_query checkbox button
               p ps s s1 s2 Hin Hprojects).
    destruct (helpers_return option (selectbox (map p_name (p :: ps))) search_query
                checkbox button workbooks s2 s3 Hsel Hget) as (s' & l & -> & _).
    destruct (sign_out s') as [[[]|e] s4]; unfold returned, actions; simpl;
      (split; [done|]); do 3 apply list_elem_of_further;
      apply elem_of_app; right; apply list_elem_of_here.
  - intros p ps e s2 s3 Hprojects Hget.
    rewrite (download_workbooks_prefix a option search_query checkbox button
               p ps s s1 s2 Hin Hprojects).
    rewrite (helpers_listing_fault option (selectbox (map p_name (p :: ps)))
               search_query checkbox button e s2 s3 Hget).
    unfold returned, actions. simpl. split; [done|].
    split; [destruct e; no_such_action | done].
Qed.
End StyledDownloads.

(** ** Instances on the small site *)

Ltac in_list := repeat first [apply list_elem_of_here | apply list_elem_of_further].

Lemma to_csv_download_offers_header_and_rows_witness :
  (∃ text,
     to_csv_download (σ := nat) Posix plain_format
       [[Str "ann"; NaN]; [Str "bob, jr"; Str "x"]] ["Name"; "Note"] "t.csv" 0
     = (Got tt, 0, [Offer text "t.csv" "text/csv"])
     ∧ read_csv text
       = Some [["Name"; "Note"]; ["ann"; EmptyString]; ["bob, jr"; "x"]])
  ∧ ∃ e, to_csv_download (σ := nat) Posix plain_format
           [[Str "ann"; NaN; Str "extra"]] ["Name"; "Note"] "t.csv" 0
         = (Fault e, 0, []).
Proof.
  split.
  - apply (proj1 (to_csv_download_offers_header_and_rows (σ := nat)
             Posix plain_format [[Str "ann"; NaN]; [Str "bob, jr"; Str "x"]]
             ["Name"; "Note"] "t.csv" 0)).
    + done.
    + repeat constructor.
    + reflexivity.
    + reflexivity.
  - apply (proj2 (to_csv_download_offers_header_and_rows (σ := nat)
             Posix plain_format [[Str "ann"; NaN; Str "extra"]]
             ["Name"; "Note"] "t.csv" 0) [Str "ann"; NaN; Str "extra"]).
    + in_list.
    + simpl. lia.
Defined.


Lemma run_export_signs_out_only_after_all_exports_witness :
  offered_files (actions (run_export (site := toy_site false) Posix plain_format toy_auth 0))
  = ["users.csv"; "groups.csv"; "projects.csv"; "workbooks.csv"; "datasources.csv"]
  ∧ ∃ e, last (actions (run_export (site := toy_site true) Posix plain_format toy_auth 0))
         = Some (Say st_error "Connection failed: {}" [Str e]).
Proof.
  split.
  - apply (run_export_signs_out_only_after_all_exports (site := toy_site false)
             Posix plain_format toy_auth 0).
    vm_compute. in_list.
  - apply (run_export_signs_out_only_after_all_exports (site := toy_site true)
             Posix plain_format toy_auth 0).
    vm_compute. intros Hin.
    repeat (apply elem_of_cons in Hin as [Hin|Hin]; [discriminate|]).
    by apply elem_of_nil in Hin.
Defined.

Lemma user_kwargs_hold_valid_keys_and_present_cells_witness :
  "name" ∈ valid_keys ∧ Str "bob" ≠ NaN
  ∧ ∃ label, (label, Str "bob") ∈ toy_row ∧ ascii_lower label = "name".
Proof.
  apply (user_kwargs_hold_valid_keys_and_present_cells ascii_lower toy_row).
  vm_compute. reflexivity.
Defined.

Lemma import_user_row_stops_at_constructor_witness :
  (∃ text,
     substring "full_name" text
     ∧ import_user_row (site := toy_site false) ascii_lower toy_row 0
       = (Got tt, 0,
          [Say st_warning "Could not add user {}: {}" [Str "unknown"; Str text]]))
  ∧ import_user_row (site := toy_site false) ascii_lower [("Name", Str "ann")] 0
    = (Got tt, 0,
       [Say st_warning "Skipping row because 'name' or 'site_role' missing" []]).
Proof.
  split.
  - apply (proj1 (import_user_row_stops_at_constructor (site := toy_site false)
                    ascii_lower toy_row 0)).
    split.
    + exists "Name", (Str "ann"). split; [in_list|]. by split.
    + exists "Site_Role", (Str "Viewer"). split; [in_list|]. by split.
  - apply (proj1 (proj2 (import_user_row_stops_at_constructor (site := toy_site false)
                    ascii_lower [("Name", Str "ann")] 0))).
    intros [_ (label & v & Hin & _ & Hl)].
    apply list_elem_of_singleton in Hin. injection Hin as -> ->. discriminate.
Defined.

Lemma later_column_wins_witness :
  user_kwargs_of ascii_lower
    (to_dict (dropna ([("Name", Str "ann")] ++ ("NAME", Str "bob")
                      :: [("Site_Role", Str "Viewer"); ("Email", NaN)])))
  !! "name" = Some (Str "bob").
Proof.
  apply (later_column_wins ascii_lower [("Name", Str "ann")]
           [("Site_Role", Str "Viewer"); ("Email", NaN)] "NAME" "name" (Str "bob")).
  - simpl. repeat (apply NoDup_cons; split; [no_such_action|]). apply NoDup_nil_2.
  - done.
  - reflexivity.
  - in_list.
  - intros label' v' Hin Hv.
    repeat (apply elem_of_cons in Hin as [[= -> ->]|Hin]; [done|]).
    by apply elem_of_nil in Hin.
Defined.

Lemma group_name_is_first_non_blank_text_witness :
  ("Sales" ≠ EmptyString
   ∧ ∃ label val, (label, Str val) ∈ toy_group_row ∧ "Sales" = strip_spaces val)
  ∧ Call (GroupsCreate (strip_spaces "  Sales  "))
    ∈ actions (import_group_row (site := toy_site false) strip_spaces toy_group_row 0)
  ∧ import_group_row (site := toy_site false) strip_spaces
      [("Id", Num 7); ("Blank", Str "   ")] 0
    = (Got tt, 0, [Say st_warning "Skipping row with no valid group name" []]).
Proof.
  split; [|split].
  - apply (proj1 (group_name_is_first_non_blank_text (site := toy_site false)
                    strip_spaces toy_group_row 0)).
    vm_compute. in_list.
  - apply (proj1 (proj2 (group_name_is_first_non_blank_text (site := toy_site false)
                           strip_spaces toy_group_row 0))
             [("Id", Num 7); ("Blank", Str "   ")] [] "Group" "  Sales  ").
    + reflexivity.
    + simpl. repeat (apply NoDup_cons; split; [no_such_action|]). apply NoDup_nil_2.
    + repeat constructor; intros val [= <-]; reflexivity.
    + vm_compute. discriminate.
  - apply (proj2 (proj2 (group_name_is_first_non_blank_text (site := toy_site false)
                           strip_spaces [("Id", Num 7); ("Blank", Str "   ")] 0))).
    repeat constructor; intros val [= <-]; reflexivity.
Defined.

Lemma run_import_signs_out_whatever_the_rows_witness :
  (returned (run_import (site := toy_site false) ascii_lower strip_spaces Users
               (Some (Got [toy_row; [("Name", Str "ann")]])) toy_auth 0) = Got tt
   ∧ Call SignOut
     ∈ actions (run_import (site := toy_site false) ascii_lower strip_spaces Users
                  (Some (Got [toy_row; [("Name", Str "ann")]])) toy_auth 0)
   ∧ Say st_success "All users imported!" []
     ∈ actions (run_import (site := toy_site false) ascii_lower strip_spaces Users
                  (Some (Got [toy_row; [("Name", Str "ann")]])) toy_auth 0))
  ∧ run_import (site := toy_site false) ascii_lower strip_spaces Groups
      (Some (Fault (OtherException "No columns to parse from file"))) toy_auth 0
    = (Got tt, 0,
       [Call SignIn; Say st_success "Connected to Tableau" [];
        Say st_error "Import failed: {}" [Str "No columns to parse from file"]]).
Proof.
  split.
  - apply (proj1 (run_import_signs_out_whatever_the_rows (site := toy_site false)
                    ascii_lower strip_spaces Users toy_auth 0 0 eq_refl)).
  - apply (proj2 (run_import_signs_out_whatever_the_rows (site := toy_site false)
                    ascii_lower strip_spaces Groups toy_auth 0 0 eq_refl)).
Defined.

Lemma group_imports_agree_on_clean_first_column_witness :
  ∃ s' l,
    import_group_row (site := toy_site false) strip_spaces
      [("Group", Str "Sales"); ("Id", Num 7)] 0 = (Got tt, s', l)
    ∧ main_import_group_row (site := toy_site false) (λ _, "7")
        [("Group", Str "Sales"); ("Id", Num 7)] None 0
      = (Got (Some (Str "Sales")), s', l)
    ∧ Call (GroupsCreate "Sales") ∈ l.
Proof.
  apply (group_imports_agree_on_clean_first_column (site := toy_site false)
           strip_spaces (λ _, "7") "Group" "Sales" [("Id", Num 7)] None 0).
  - simpl. repeat (apply NoDup_cons; split; [no_such_action|]). apply NoDup_nil_2.
  - reflexivity.
  - discriminate.
Defined.

Lemma download_all_tries_every_project_workbook_witness :
  returned (_download_all_workbooks (site := toy_site true) "Sales" 0) = Got tt
  ∧ download_calls (actions (_download_all_workbooks (site := toy_site true) "Sales" 0))
    = map w_id (List.filter (in_project "Sales") toy_workbooks)
  ∧ (∀ f, f ∈ offered_files (actions (_download_all_workbooks (site := toy_site true)
                                        "Sales" 0)) →
       ∃ wb, wb ∈ toy_workbooks ∧ w_project_name wb = Some "Sales"
             ∧ f = w_name wb +:+ ".twbx").
Proof.
  apply (download_all_tries_every_project_workbook (site := toy_site true)
           "Sales" toy_workbooks 0 0).
  reflexivity.
Defined.

Lemma download_all_toast_counts_attempts_witness :
  last (actions (_download_all_workbooks (site := toy_site true) "Sales" 0))
  = Some (Say st_toast "Downloaded {} workbooks!"
            [Num (Z.of_nat (length (List.filter (in_project "Sales") toy_workbooks)))])
  ∧ offered_files (actions (_download_all_workbooks (site := toy_site true) "Sales" 0))
    = [].
Proof.
  destruct (download_all_toast_counts_attempts (site := toy_site true)
              "Sales" toy_workbooks 0 0) as [Hlast Hnone].
  - reflexivity.
  - vm_compute. discriminate.
  - split; [exact Hlast|]. apply Hnone.
    intros id s0. by exists (OtherException "timed out"), s0.
Defined.

Lemma first_option_is_an_option (options : list string) :
  options ≠ [] → first_option options ∈ options.
Proof. destruct options; [done|]. intros _. apply list_elem_of_here. Defined.

Lemma download_single_takes_first_of_name_witness :
  ∃ wb pre post,
    List.filter (in_project "Sales") toy_workbooks = pre ++ wb :: post
    ∧ w_name wb
      = first_option (map w_name (List.filter (in_project "Sales") toy_workbooks))
    ∧ Forall (λ w, w_name w ≠ w_name wb) pre
    ∧ returned (_download_single_workbook (site := toy_site false) first_option
                  "Sales" true 0) = Got tt
    ∧ download_calls (actions (_download_single_workbook (site := toy_site false)
                                 first_option "Sales" true 0))
      = [w_id wb].
Proof.
  apply (download_single_takes_first_of_name (site := toy_site false) first_option
           "Sales" true toy_workbooks 0 0).
  - apply first_option_is_an_option.
  - reflexivity.
  - vm_compute. discriminate.
Defined.

Lemma search_downloads_the_ticked_matches_witness :
  returned (_search_and_download_workbooks (site := toy_site false) ascii_lower
              "Sales" "QUART" (λ wb, String.eqb (w_id wb) "w-3") true 0) = Got tt
  ∧ (∀ id,
       id ∈ download_calls
              (actions (_search_and_download_workbooks (site := toy_site false)
                          ascii_lower "Sales" "QUART"
                          (λ wb, String.eqb (w_id wb) "w-3") true 0))
       ↔ true = true
         ∧ ∃ wb, wb ∈ toy_workbooks ∧ w_id wb = id
                 ∧ String.eqb (w_id wb) "w-3" = true
                 ∧ matches_search ascii_lower "Sales" "QUART" wb).
Proof.
  apply (search_downloads_the_ticked_matches (site := toy_site false) ascii_lower
           "Sales" "QUART" (λ wb, String.eqb (w_id wb) "w-3") true toy_workbooks 0 0).
  reflexivity.
Defined.

Lemma download_workbooks_sessions_witness :
  download_workbooks (site := bare_site [] (OtherException "down")) ascii_lower
    first_option toy_auth SpecificWorkbook EmptyString (λ _, false) false 0
  = (Got tt, 0,
     [Call SignIn; Say st_toast "Connection established successfully!" [];
      Call ProjectsGet; Say st_error "No projects found on this site!" []])
  ∧ (returned (download_workbooks (site := toy_site true) ascii_lower first_option
                 toy_auth AllFromProject EmptyString (λ _, false) false 0) = Got tt
     ∧ Call SignOut
       ∈ actions (download_workbooks (site := toy_site true) ascii_lower first_option
                    toy_auth AllFromProject EmptyString (λ _, false) false 0))
  ∧ (returned (download_workbooks
                 (site := bare_site [toy_project] (ServerResponseError "503"))
                 ascii_lower first_option toy_auth SearchAndDownload "q"
                 (λ _, true) true 0) = Got tt
     ∧ (Call SignOut
        ∉ actions (download_workbooks
                     (site := bare_site [toy_project] (ServerResponseError "503"))
                     ascii_lower first_option toy_auth SearchAndDownload "q"
                     (λ _, true) true 0))
     ∧ last (actions (download_workbooks
                        (site := bare_site [toy_project] (ServerResponseError "503"))
                        ascii_lower first_option toy_auth SearchAndDownload "q"
                        (λ _, true) true 0))
       = Some (Say st_error "Tableau Server error: {}" [Str "503"])).
Proof.
  split; [|split].
  - apply (proj1 (download_workbooks_sessions
                    (site := bare_site [] (OtherException "down")) ascii_lower
                    first_option toy_auth SpecificWorkbook EmptyString
                    (λ _, false) false 0 0 eq_refl first_option_is_an_option)).
    reflexivity.
  - apply (proj1 (proj2 (download_workbooks_sessions (site := toy_site true) ascii_lower
                           first_option toy_auth AllFromProject EmptyString
                           (λ _, false) false 0 0 eq_refl first_option_is_an_option))
             toy_project [] toy_workbooks 0 0); reflexivity.
  - apply (proj2 (proj2 (download_workbooks_sessions
                           (site := bare_site [toy_project] (ServerResponseError "503"))
                           ascii_lower first_option toy_auth SearchAndDownload "q"
                           (λ _, true) true 0 0 eq_refl first_option_is_an_option))
             toy_project [] (ServerResponseError "503") 0 0); reflexivity.
Defined.
